(** * Biotech & Pharma monthly news agent ([biotech_agent.py])

    A shallow embedding of [BiotechNewsAgent] and the properties of its
    fetcher, classifier, company-name heuristic, aggregator, report writer
    and orchestrator.

    Text.  A Python [str] is modelled by [string]; a character is a code
    point in 0..255 and the tables of [str.lower], [str.isupper] and
    [str.isspace] are Python's, restricted to that range.

    Effects.  [print], [feedparser.parse], [datetime.now] and the workbook
    writer are modelled by a state-and-exception monad over a [world]: the
    lines printed so far and the workbooks written so far.  What the
    outside decides (the clock, the outcome of parsing each feed) is read
    from an [env]; the workbook writer is a parameter of the report writer
    and of the run, [save] being the writer that succeeds. *)

From Stdlib Require Import String Ascii List ZArith NArith Bool Lia.
From Stdlib Require Import Permutation.
Import ListNotations.
Local Open Scope string_scope.
Local Open Scope list_scope.

(* ------------------------------------------------------------------ *)
(** ** Python's string built-ins *)

Module Str.

Definition code (c : ascii) : N := N_of_ascii c.

(** [c.isspace()]: TAB..CR, FS..US and space, NEL, NBSP. *)
Definition isspace (c : ascii) : bool :=
  let n := code c in
  ((9 <=? n) && (n <=? 13) || (28 <=? n) && (n <=? 32)
   || (n =? 133) || (n =? 160))%N.

(** [c.isupper()]: A..Z and the capital letters of Latin-1
    (all of 192..222 but the multiplication sign 215). *)
Definition isupper (c : ascii) : bool :=
  let n := code c in
  ((65 <=? n) && (n <=? 90)
   || (192 <=? n) && (n <=? 222) && negb (n =? 215))%N.

(** [c.islower()]: a..z, the two ordinal indicators, the micro sign and
    the small letters of Latin-1 (all of 223..255 but the division sign). *)
Definition islower (c : ascii) : bool :=
  let n := code c in
  ((97 <=? n) && (n <=? 122) || (n =? 170) || (n =? 181) || (n =? 186)
   || (223 <=? n) && (n <=? 255) && negb (n =? 247))%N.

Definition lower_char (c : ascii) : ascii :=
  if isupper c then ascii_of_N (code c + 32) else c.

(** Small letters whose capital is again below 256 (not the sharp s, the
    micro sign, the y with diaeresis). *)
Definition upper_char (c : ascii) : ascii :=
  let n := code c in
  if ((97 <=? n) && (n <=? 122)
      || (224 <=? n) && (n <=? 254) && negb (n =? 247))%N
  then ascii_of_N (n - 32) else c.

(** [s.lower()] *)
Fixpoint lower (s : string) : string :=
  match s with
  | EmptyString => EmptyString
  | String c r => String (lower_char c) (lower r)
  end.

(** [s.title()]: a cased character is capitalised after an uncased one
    and lowered after a cased one. *)
Fixpoint title_from (prev_cased : bool) (s : string) : string :=
  match s with
  | EmptyString => EmptyString
  | String c r =>
      String (if prev_cased then lower_char c else upper_char c)
             (title_from (isupper c || islower c) r)
  end.

Definition title (s : string) : string := title_from false s.

(** [s.replace(a, b)] for one-character [a] and [b]. *)
Fixpoint replace (a b : ascii) (s : string) : string :=
  match s with
  | EmptyString => EmptyString
  | String c r => String (if Ascii.eqb c a then b else c) (replace a b r)
  end.

(** [s[:n]] *)
Fixpoint take (n : nat) (s : string) : string :=
  match n, s with
  | S k, String c r => String c (take k r)
  | _, _ => EmptyString
  end.

(** [s.startswith(p)] *)
Fixpoint startswith (p s : string) : bool :=
  match p, s with
  | EmptyString, _ => true
  | String a p', String b s' => Ascii.eqb a b && startswith p' s'
  | String _ _, EmptyString => false
  end.

(** [p in s]: [p] starts at some position of [s]. *)
Fixpoint contains (p s : string) : bool :=
  startswith p s
  || match s with
     | EmptyString => false
     | String _ r => contains p r
     end.

(** [s.split()]: the maximal runs of non-whitespace characters, in order.
    [cur] is the run being read. *)
Fixpoint split_from (cur s : string) : list string :=
  match s with
  | EmptyString => match cur with EmptyString => [] | _ => [cur] end
  | String c r =>
      if isspace c
      then match cur with
           | EmptyString => split_from EmptyString r
           | _ => cur :: split_from EmptyString r
           end
      else split_from (cur ++ String c EmptyString) r
  end.

Definition split (s : string) : list string := split_from EmptyString s.

(** [sep.join(l)] *)
Fixpoint join (sep : string) (l : list string) : string :=
  match l with
  | [] => EmptyString
  | [w] => w
  | w :: r => w ++ sep ++ join sep r
  end.

(** [x in l] for a list of strings. *)
Definition mem (x : string) (l : list string) : bool :=
  existsb (String.eqb x) l.

End Str.

(* ------------------------------------------------------------------ *)
(** ** Exceptions *)

(** The exceptions the program can meet.  [OverflowError], [ValueError],
    [IndexError] and [KeyError] come from the code itself; the others stand
    for what [feedparser.parse] can raise. *)
Inductive exn : Type :=
| OverflowError
| ValueError
| IndexError
| URLError            (* network error *)
| SAXParseException   (* malformed feed *)
| TimeoutError
| KeyError
| OSError             (* the disk refuses the workbook *)
| KeyboardInterrupt.

(** [isinstance(e, Exception)]: what [except Exception] catches. *)
Definition is_Exception (e : exn) : bool :=
  match e with
  | KeyboardInterrupt => false
  | _ => true
  end.

Inductive result (A : Type) : Type :=
| Ok (a : A)
| Raise (e : exn).
Arguments Ok {A} a.
Arguments Raise {A} e.

(* ------------------------------------------------------------------ *)
(** ** Data model *)

(** The dictionary built for each feed entry in [fetch_news_from_feed]. *)
Record article : Type := mkArticle {
  a_title : string;
  a_link : string;
  a_published : string;
  a_summary : string;
  a_source : string
}.

(** The dictionary [data] built for each article in [process_articles]. *)
Record record : Type := mkRecord {
  Company : string;
  Date : string;
  Title : string;
  Source : string;
  URL : string;
  Summary : string
}.

(** [self.feeds], in insertion order. *)
Definition feeds : list (string * string) :=
  [ ("FierceBiotech", "https://www.fiercebiotech.com/rss/xml");
    ("BioPharma Dive", "https://www.biopharmadive.com/feeds/news/");
    ("GEN News", "https://www.genengnews.com/feed/");
    ("BioSpace", "https://www.biospace.com/feed/") ].

(** [self.keywords], in insertion order. *)
Definition keywords : list (string * list string) :=
  [ ("revenue",
     ["revenue"; "earnings"; "quarterly results"; "q1"; "q2"; "q3"; "q4";
      "sales"; "financial results"; "profit"]);
    ("acquisition",
     ["acquisition"; "merger"; "acquire"; "acquired"; "deal"; "bought";
      "takeover"; "m&a"; "purchase"]);
    ("funding",
     ["funding"; "raised"; "series a"; "series b"; "series c"; "investment";
      "investors"; "venture capital"; "ipo"; "financing"]);
    ("new_company",
     ["launched"; "founded"; "new company"; "startup"; "spin-off";
      "spinout"; "established"; "announces formation"]) ].

(* ------------------------------------------------------------------ *)
(** ** Classifier *)

(** [any(keyword in text for keyword in keywords)] *)
Definition any_keyword_in (kws : list string) (text : string) : bool :=
  existsb (fun keyword => Str.contains keyword text) kws.

(** One turn of the loop of [categorize_article]. *)
Definition categorize_step (text : string) (categories : list string)
    (item : string * list string) : list string :=
  let (category, kws) := item in
  if any_keyword_in kws text then categories ++ [category] else categories.

Definition search_text (a : article) : string :=
  Str.lower (a_title a ++ " " ++ a_summary a).

Definition categorize_article (a : article) : list string :=
  fold_left (categorize_step (search_text a)) keywords [].

(* ------------------------------------------------------------------ *)
(** ** Company-name heuristic *)

(** [word[0]]: raises [IndexError] on the empty string. *)
Definition index0 (word : string) : result ascii :=
  match word with
  | EmptyString => Raise IndexError
  | String c _ => Ok c
  end.

(** The loop of [extract_company_name] over [words[:5]]; leaving the
    recursion is the [break]. *)
Fixpoint company_loop (words : list string) (company_words : list string)
  : result (list string) :=
  match words with
  | [] => Ok company_words
  | word :: rest =>
      match index0 word with
      | Raise e => Raise e
      | Ok c =>
          if Str.isupper c && (2 <? String.length word)%nat
          then company_loop rest (company_words ++ [word])
          else Ok company_words
      end
  end.

Definition extract_company_name (text : string) : result string :=
  let words := Str.split text in
  match company_loop (firstn 5 words) [] with
  | Raise e => Raise e
  | Ok company_words =>
      Ok (match company_words with
          | [] => "Unknown"
          | _ => Str.join " " company_words
          end)
  end.

(* ------------------------------------------------------------------ *)
(** ** The outside world *)

(** A feed entry: each field may be missing. *)
Record entry : Type := mkEntry {
  e_title : option string;
  e_link : option string;
  e_published : option string;
  e_summary : option string
}.

(** [entry.get(key, default)] *)
Definition get (field : option string) (default : string) : string :=
  match field with
  | Some v => v
  | None => default
  end.

(** What the run reads from outside: the date of [datetime.now()] as a
    proleptic Gregorian ordinal, its [strftime], and for each URL what
    [feedparser.parse(url)] does: raise, or give a feed with these entries. *)
Record env : Type := mkEnv {
  today : Z;
  strftime : string -> string;
  parse : string -> result (list entry)
}.

(** A line on standard output. *)
Inductive line : Type :=
| Text (s : string)
| RunDate (stamp : string)
| LookingBack (days_back : Z)
| Fetching (source_name : string)
| Found (n : nat)
| ErrorFetching (source_name : string) (e : exn)
| TotalCollected (n : nat)
| CategoryCount (label : string) (n : nat)
| ReportCreated (filename : string)
| NoArticles.

(** A sheet of the workbook, by the frame it was written from. *)
Inductive sheet : Type :=
| CountSheet (rows : list (string * nat))      (* Category, Count *)
| ArticleSheet (rows : list record)             (* one row per record *)
| FieldSheet (rows : list (string * string)).  (* Field, Value *)

Definition workbook : Type := list (string * sheet).

Record world : Type := mkWorld {
  stdout : list line;
  files : list (string * workbook)
}.

(* ------------------------------------------------------------------ *)
(** ** The monad of the run *)

Definition M (A : Type) : Type := world -> result A * world.

Definition ret {A : Type} (a : A) : M A := fun w => (Ok a, w).

Definition bind {A B : Type} (m : M A) (k : A -> M B) : M B :=
  fun w =>
    match m w with
    | (Ok a, w') => k a w'
    | (Raise e, w') => (Raise e, w')
    end.

Definition lift {A : Type} (r : result A) : M A := fun w => (r, w).

Notation "x <- m ;; k" := (bind m (fun x => k))
  (at level 61, m at next level, right associativity).
Notation "m ;; k" := (bind m (fun _ => k))
  (at level 61, right associativity).

(** [try: body / except Exception as e: handler e] *)
Definition try_except {A : Type} (body : M A) (handler : exn -> M A) : M A :=
  fun w =>
    match body w with
    | (Raise e, w') => if is_Exception e then handler e w' else (Raise e, w')
    | ok => ok
    end.

Definition print (l : line) : M unit :=
  fun w => (Ok tt, mkWorld (stdout w ++ [l]) (files w)).

(** Leaving [with pd.ExcelWriter(filename)]: the workbook is on disk. *)
Definition save (filename : string) (wb : workbook) : M unit :=
  fun w => (Ok tt, mkWorld (stdout w) (files w ++ [(filename, wb)])).

(** [for x in l: acc = body acc x] *)
Fixpoint for_each {A S : Type} (l : list A) (acc : S) (body : S -> A -> M S)
  : M S :=
  match l with
  | [] => ret acc
  | x :: r => acc' <- body acc x ;; for_each r acc' body
  end.

(* ------------------------------------------------------------------ *)
(** ** Dates *)

(** [date.max.toordinal()] *)
Definition MAXORDINAL : Z := 3652059%Z.

(** [timedelta(days=d)] *)
Definition timedelta (days : Z) : result Z :=
  if (Z.abs days <=? 999999999)%Z then Ok days else Raise OverflowError.

(** [now - delta] for a [delta] of whole days: the date of the result. *)
Definition datetime_sub (now delta : Z) : result Z :=
  let r := (now - delta)%Z in
  if ((1 <=? r) && (r <=? MAXORDINAL))%Z then Ok r else Raise OverflowError.

(* ------------------------------------------------------------------ *)
(** ** Numbers in formatted text *)

(** [sys.get_int_max_str_digits()], as CPython 3.11 sets it. *)
Definition int_max_str_digits : Z := 4300%Z.

(** [f"{n}"] for an [int]: an [int] of more than 4300 decimal digits is
    refused with [ValueError]. *)
Definition format_int (n : Z) : result Z :=
  if (Z.abs n <? 10 ^ int_max_str_digits)%Z then Ok n else Raise ValueError.

(* ------------------------------------------------------------------ *)
(** ** Buckets *)

(** A dictionary from bucket name to records, in insertion order. *)
Definition dict : Type := list (string * list record).

(** [d[k]] *)
Fixpoint dict_get (k : string) (d : dict) : result (list record) :=
  match d with
  | [] => Raise KeyError
  | (k', v) :: r => if String.eqb k k' then Ok v else dict_get k r
  end.

(** [d[k].append(x)] *)
Fixpoint dict_append (k : string) (x : record) (d : dict) : result dict :=
  match d with
  | [] => Raise KeyError
  | (k', v) :: r =>
      if String.eqb k k' then Ok ((k', v ++ [x]) :: r)
      else match dict_append k x r with
           | Ok r' => Ok ((k', v) :: r')
           | Raise e => Raise e
           end
  end.

(** [d.values()] *)
Definition values (d : dict) : list (list record) := map snd d.

(** [sum(len(v) for v in d.values())] *)
Definition total_count (d : dict) : nat :=
  fold_left (fun acc v => (acc + List.length v)%nat) (values d) 0%nat.

Definition empty_buckets : dict :=
  [ ("revenue", []); ("acquisitions", []); ("funding", []);
    ("new_companies", []) ].

(** [if name in categories: categorized[bucket].append(data)] *)
Definition add_if (name bucket : string) (categories : list string)
    (data : record) (categorized : dict) : result dict :=
  if Str.mem name categories then dict_append bucket data categorized
  else Ok categorized.

(** [rule n] is ["=" * n]. *)
Fixpoint rule (n : nat) : string :=
  match n with
  | O => EmptyString
  | S k => String "=" (rule k)
  end.

Definition newline : string := String (ascii_of_nat 10) EmptyString.

(** [" " * n] *)
Fixpoint spaces (n : nat) : string :=
  match n with
  | O => EmptyString
  | S k => String " " (spaces k)
  end.

(* ------------------------------------------------------------------ *)
(** ** Records *)

(** [article['published'][:10] if article['published'] else 'N/A'] *)
Definition date_of (published : string) : string :=
  match published with
  | EmptyString => "N/A"
  | _ => Str.take 10 published
  end.

(** [summary[:200] + '...' if len(summary) > 200 else summary] *)
Definition truncate (summary : string) : string :=
  if (200 <? String.length summary)%nat
  then (Str.take 200 summary ++ "...")%string
  else summary.

(** The dictionary [data] of [process_articles]. *)
Definition record_of (company : string) (a : article) : record :=
  {| Company := company;
     Date := date_of (a_published a);
     Title := a_title a;
     Source := a_source a;
     URL := a_link a;
     Summary := truncate (a_summary a) |}.

(* ------------------------------------------------------------------ *)
(** ** The agent *)

Section Agent.

Variable E : env.

(** [datetime.now() - timedelta(days=days_back)] *)
Definition cutoff_date (days_back : Z) : result Z :=
  match timedelta days_back with
  | Ok delta => datetime_sub (today E) delta
  | Raise e => Raise e
  end.

(** The dictionary appended for one entry. *)
Definition article_of (source_name : string) (en : entry) : article :=
  {| a_title := get (e_title en) "";
     a_link := get (e_link en) "";
     a_published := get (e_published en) "";
     a_summary := get (e_summary en) "";
     a_source := source_name |}.

(** [for entry in entries: articles.append({...})] *)
Definition append_entries (source_name : string) (entries : list entry)
    (articles : list article) : list article :=
  fold_left (fun articles en => articles ++ [article_of source_name en])
            entries articles.

(** The handler returns [articles] as the [try] block left it: the only
    statement of the block that can raise is the call of
    [feedparser.parse], before the first [append]. *)
Definition fetch_news_from_feed (feed_url source_name : string)
    (days_back : Z) : M (list article) :=
  let articles := [] in
  cutoff <- lift (cutoff_date days_back) ;;
  try_except
    (print (Fetching source_name) ;;
     feed <- lift (parse E feed_url) ;;
     let articles := append_entries source_name (firstn 100 feed) articles in
     print (Found (List.length articles)) ;;
     ret articles)
    (fun e =>
       print (ErrorFetching source_name e) ;;
       ret articles).

Definition fetch_all_news (days_back : Z) : M (list article) :=
  print (Text (newline ++ rule 60)) ;;
  print (Text "COLLECTING NEWS FROM SOURCES") ;;
  print (Text (rule 60)) ;;
  all_articles <-
    for_each feeds []
      (fun all_articles '(source_name, feed_url) =>
         articles <- fetch_news_from_feed feed_url source_name days_back ;;
         ret (all_articles ++ articles)) ;;
  print (TotalCollected (List.length all_articles)) ;;
  ret all_articles.

(** The body of the loop of [process_articles]. *)
Definition process_article (categorized : dict) (a : article)
  : result dict :=
  let categories := categorize_article a in
  match extract_company_name (a_title a) with
  | Raise e => Raise e
  | Ok company =>
      let data := record_of company a in
      match add_if "revenue" "revenue" categories data categorized with
      | Raise e => Raise e
      | Ok c1 =>
      match add_if "acquisition" "acquisitions" categories data c1 with
      | Raise e => Raise e
      | Ok c2 =>
      match add_if "funding" "funding" categories data c2 with
      | Raise e => Raise e
      | Ok c3 => add_if "new_company" "new_companies" categories data c3
      end end end
  end.

(** [len(categorized[k])], for the lines printed at the end. *)
Definition print_count (label k : string) (categorized : dict) : M unit :=
  v <- lift (dict_get k categorized) ;;
  print (CategoryCount label (List.length v)).

Definition process_articles (articles : list article) : M dict :=
  print (Text (newline ++ rule 60)) ;;
  print (Text "PROCESSING AND CATEGORIZING ARTICLES") ;;
  print (Text (rule 60)) ;;
  categorized <-
    for_each articles empty_buckets
      (fun categorized a => lift (process_article categorized a)) ;;
  print_count "Revenue" "revenue" categorized ;;
  print_count "Acquisition" "acquisitions" categorized ;;
  print_count "Funding" "funding" categorized ;;
  print_count "New company" "new_companies" categorized ;;
  ret categorized.

(** The two columns of [summary_data], row by row. *)
Definition summary_rows (categorized_data : dict)
  : result (list (string * nat)) :=
  match dict_get "revenue" categorized_data with
  | Raise e => Raise e
  | Ok r =>
  match dict_get "acquisitions" categorized_data with
  | Raise e => Raise e
  | Ok a =>
  match dict_get "funding" categorized_data with
  | Raise e => Raise e
  | Ok f =>
  match dict_get "new_companies" categorized_data with
  | Raise e => Raise e
  | Ok n =>
      Ok [ ("Revenue Reports", List.length r);
           ("Acquisitions", List.length a);
           ("Funding Rounds", List.length f);
           ("New Companies", List.length n);
           ("Total Articles", total_count categorized_data) ]
  end end end end.

(** One sheet for each bucket that is not empty, in the order of
    [categorized_data.items()]. *)
Definition category_sheets (categorized_data : dict) : workbook :=
  fold_left
    (fun sheets '(category, articles) =>
       match articles with
       | [] => sheets
       | _ =>
           sheets ++ [(Str.title (Str.replace "_" " " category),
                       ArticleSheet articles)]
       end)
    categorized_data [].

Definition metadata_rows : list (string * string) :=
  [ ("Report Generated", strftime E "%Y-%m-%d %H:%M:%S UTC");
    ("Report Period", strftime E "%B %Y");
    ("Sources Used", Str.join ", " (map fst feeds));
    ("Agent Version", "1.0.0 (GitHub Actions)") ].

Definition report_filename : string :=
  "Biotech_Pharma_Report_" ++ strftime E "%Y-%m" ++ ".xlsx".

(** The sheets in the order they are written. *)
Definition workbook_of (rows : list (string * nat)) (categorized_data : dict)
  : workbook :=
  [("Summary", CountSheet rows)]
  ++ category_sheets categorized_data
  ++ [("Metadata", FieldSheet metadata_rows)].

(** [create_excel_report] over what the workbook writer does with the
    finished sheets ([pd.ExcelWriter] with openpyxl, an outside library):
    [writer filename wb] stands for writing [wb] under [filename]; the code
    has no handler around it.  A [KeyError] leaves the block before
    anything is handed to the writer. *)
Definition create_excel_report_via (writer : string -> workbook -> M unit)
    (categorized_data : dict) : M string :=
  print (Text (newline ++ rule 60)) ;;
  print (Text "GENERATING EXCEL REPORT") ;;
  print (Text (rule 60)) ;;
  let filename := report_filename in
  rows <- lift (summary_rows categorized_data) ;;
  writer filename (workbook_of rows categorized_data) ;;
  print (ReportCreated filename) ;;
  ret filename.

(** With the writer that succeeds. *)
Definition create_excel_report : dict -> M string :=
  create_excel_report_via save.

(** Returns [None] or the name of the workbook.  The line with
    [days_back] is formatted before anything is fetched. *)
Definition run_monthly_report_via (writer : string -> workbook -> M unit)
    (days_back : Z) : M (option string) :=
  print (Text (newline ++ rule 70)) ;;
  print (Text (spaces 15 ++ "BIOTECH & PHARMA NEWS AGENT")) ;;
  print (Text (spaces 20 ++ "Automated Monthly Report")) ;;
  print (Text (rule 70)) ;;
  print (RunDate (strftime E "%Y-%m-%d %H:%M:%S UTC")) ;;
  shown <- lift (format_int days_back) ;;
  print (LookingBack shown) ;;
  print (Text (rule 70)) ;;
  articles <- fetch_all_news days_back ;;
  match articles with
  | [] =>
      print NoArticles ;;
      ret None
  | _ =>
      categorized <- process_articles articles ;;
      filename <- create_excel_report_via writer categorized ;;
      print (Text (newline ++ rule 70)) ;;
      print (Text (spaces 25 ++ "REPORT COMPLETE!")) ;;
      print (Text (rule 70)) ;;
      ret (Some filename)
  end.

(** With the writer that succeeds. *)
Definition run_monthly_report : Z -> M (option string) :=
  run_monthly_report_via save.

End Agent.

(* ------------------------------------------------------------------ *)
(** ** The extractor and the classifier as the specification words them *)

(** [w] after the lines [ls] were printed. *)
Definition log (ls : list line) (w : world) : world :=
  mkWorld (stdout w ++ ls) (files w).

(** [m] only prints: its result and its lines do not depend on the world
    it starts in, and it writes no workbook. *)
Definition logs_only {A : Type} (m : M A) : Prop :=
  exists (r : result A) (ls : list line), forall w, m w = (r, log ls w).

(** The keys of the dictionary of buckets. *)
Definition bucket_keys : list string :=
  ["revenue"; "acquisitions"; "funding"; "new_companies"].

(** [days_back] is a number of days that [timedelta] accepts and that
    leads from today to a date of the calendar. *)
Definition in_calendar (E : env) (days_back : Z) : Prop :=
  (Z.abs days_back <= 999999999 /\ 1 <= today E - days_back <= MAXORDINAL)%Z.

(** The articles one feed contributes: its first 100 entries, none when
    parsing it raises. *)
Definition feed_articles (E : env) (item : string * string) : list article :=
  let (source_name, feed_url) := item in
  match parse E feed_url with
  | Ok feed => map (article_of source_name) (firstn 100 feed)
  | Raise _ => []
  end.

(** Source order, then feed order. *)
Definition collected (E : env) : list article :=
  flat_map (feed_articles E) feeds.

(** Every failure of [feedparser.parse] is an [Exception]. *)
Definition feeds_fail_softly (E : env) : Prop :=
  forall feed_url e, parse E feed_url = Raise e -> is_Exception e = true.

(** A sample environment for closed instances: 4 November 2026; one feed
    answers with two entries, the others are unreachable. *)
Definition sample_entries : list entry :=
  [ mkEntry (Some "Pfizer to acquire Seagen in $43B deal")
            (Some "https://example.org/1")
            (Some "Mon, 13 Mar 2023 10:00:00 GMT")
            (Some "Q1 earnings beat");
    mkEntry (Some "Nothing here") None None None ].

Definition sample_strftime (fmt : string) : string :=
  if String.eqb fmt "%Y-%m" then "2026-11"
  else if String.eqb fmt "%B %Y" then "November 2026"
  else "2026-11-04 12:00:00 UTC".

Definition sample_env : env :=
  mkEnv 739924 sample_strftime
        (fun feed_url =>
           if String.eqb feed_url "https://www.biospace.com/feed/"
           then Ok sample_entries else Raise URLError).

(** The same day with every feed unreachable. *)
Definition offline_env : env :=
  mkEnv 739924 sample_strftime (fun _ => Raise URLError).

Definition empty_world : world := mkWorld [] [].

(** [len(d[k])], 0 for a missing key. *)
Definition len_get (d : dict) (k : string) : nat :=
  match dict_get k d with
  | Ok v => List.length v
  | Raise _ => 0%nat
  end.

(** The five rows of the Summary sheet for buckets of these sizes. *)
Definition five_rows (r a f n : nat) : list (string * nat) :=
  [ ("Revenue Reports", r); ("Acquisitions", a); ("Funding Rounds", f);
    ("New Companies", n); ("Total Articles", (r + a + f + n)%nat) ].

(** The number of categories each article matched, added up. *)
Definition matches_total (articles : list article) : nat :=
  list_sum (map (fun a => List.length (categorize_article a)) articles).

(** What [run_monthly_report] does after [fetch_all_news] returned. *)
Definition after_fetch (E : env) (articles : list article)
  : M (option string) :=
  match articles with
  | [] =>
      print NoArticles ;;
      ret None
  | _ =>
      categorized <- process_articles articles ;;
      filename <- create_excel_report E categorized ;;
      print (Text (newline ++ rule 70)) ;;
      print (Text (spaces 25 ++ "REPORT COMPLETE!")) ;;
      print (Text (rule 70)) ;;
      ret (Some filename)
  end.

(** The lines [run_monthly_report] prints before fetching. *)
Definition banner (E : env) (days_back : Z) : list line :=
  [ Text (newline ++ rule 70);
    Text (spaces 15 ++ "BIOTECH & PHARMA NEWS AGENT");
    Text (spaces 20 ++ "Automated Monthly Report");
    Text (rule 70);
    RunDate (strftime E "%Y-%m-%d %H:%M:%S UTC");
    LookingBack days_back;
    Text (rule 70) ].

(** [s] holds no whitespace character. *)
Fixpoint no_space (s : string) : bool :=
  match s with
  | EmptyString => true
  | String c r => negb (Str.isspace c) && no_space r
  end.

(** [s] holds whitespace characters only. *)
Fixpoint all_space (s : string) : bool :=
  match s with
  | EmptyString => true
  | String c r => Str.isspace c && all_space r
  end.

(** A token qualifies when its first character is an uppercase letter and
    it is longer than 2 characters. *)
Definition qualifies (token : string) : bool :=
  match token with
  | EmptyString => false
  | String c _ => Str.isupper c && (2 <? String.length token)%nat
  end.

(** The longest prefix of [l] whose elements all satisfy [p]. *)
Fixpoint take_while {A : Type} (p : A -> bool) (l : list A) : list A :=
  match l with
  | [] => []
  | x :: r => if p x then x :: take_while p r else []
  end.

(** The leading qualifying tokens among the first 5, joined by one space;
    ["Unknown"] when there is none. *)
Definition extractCompany (title : string) : string :=
  match take_while qualifies (firstn 5 (Str.split title)) with
  | [] => "Unknown"
  | tokens => Str.join " " tokens
  end.

(** [kw] occurs in [text] up to case: some substring of [text] has the
    same lowercase form as [kw]. *)
Definition occurs_ci (kw text : string) : Prop :=
  exists pre mid post : string,
    text = (pre ++ mid ++ post)%string /\ Str.lower mid = Str.lower kw.

(** The text the classifier searches, before folding. *)
Definition title_and_summary (a : article) : string :=
  a_title a ++ " " ++ a_summary a.

(** Some phrase of [category] in the table occurs in the article. *)
Definition category_matches (category : string) (a : article) : Prop :=
  exists kws kw,
    In (category, kws) keywords /\ In kw kws
    /\ occurs_ci kw (title_and_summary a).

(* ------------------------------------------------------------------ *)
(** ** Vocabulary for the behaviour beyond the stated claims *)

(** The labels of the keyword table, in its order. *)
Definition labels : list string := map fst keywords.

(** The record [process_articles] builds for an article. *)
Definition to_record (a : article) : record :=
  record_of (extractCompany (a_title a)) a.

(** The records of the articles that carry [label], in their order. *)
Definition bucket_of (label : string) (articles : list article)
  : list record :=
  map to_record
      (filter (fun a => Str.mem label (categorize_article a)) articles).

(** The four buckets of a batch of articles. *)
Definition buckets_of (articles : list article) : dict :=
  [ ("revenue", bucket_of "revenue" articles);
    ("acquisitions", bucket_of "acquisition" articles);
    ("funding", bucket_of "funding" articles);
    ("new_companies", bucket_of "new_company" articles) ].

(** The name of the sheet of a bucket. *)
Definition sheet_name (category : string) : string :=
  Str.title (Str.replace "_" " " category).

(** [bool(v)] for a list. *)
Definition nonempty {A : Type} (v : list A) : bool :=
  match v with
  | [] => false
  | _ => true
  end.

(** The feed at [feed_url] gives no entry: parsing raises, or the feed is
    empty. *)
Definition contributes_nothing (E : env) (feed_url : string) : Prop :=
  match parse E feed_url with
  | Ok (_ :: _) => False
  | _ => True
  end.

(** [days_back] has at most 4300 decimal digits. *)
Definition formattable (days_back : Z) : Prop :=
  (Z.abs days_back < 10 ^ int_max_str_digits)%Z.

(** The lines of [run_monthly_report] before the one with [days_back]. *)
Definition banner_head (E : env) : list line :=
  [ Text (newline ++ rule 70);
    Text (spaces 15 ++ "BIOTECH & PHARMA NEWS AGENT");
    Text (spaces 20 ++ "Automated Monthly Report");
    Text (rule 70);
    RunDate (strftime E "%Y-%m-%d %H:%M:%S UTC") ].

(** The lines [process_articles] prints for a batch. *)
Definition processing_lines (articles : list article) : list line :=
  [ Text (newline ++ rule 60);
    Text "PROCESSING AND CATEGORIZING ARTICLES";
    Text (rule 60);
    CategoryCount "Revenue" (List.length (bucket_of "revenue" articles));
    CategoryCount "Acquisition"
      (List.length (bucket_of "acquisition" articles));
    CategoryCount "Funding" (List.length (bucket_of "funding" articles));
    CategoryCount "New company"
      (List.length (bucket_of "new_company" articles)) ].

(** The headings of [create_excel_report]. *)
Definition generating_lines : list line :=
  [ Text (newline ++ rule 60); Text "GENERATING EXCEL REPORT";
    Text (rule 60) ].

(** The last lines of a run that wrote its report. *)
Definition complete_lines : list line :=
  [ Text (newline ++ rule 70); Text (spaces 25 ++ "REPORT COMPLETE!");
    Text (rule 70) ].

(** The workbook of a batch of articles. *)
Definition report_of (E : env) (articles : list article) : workbook :=
  workbook_of E
    (five_rows (List.length (bucket_of "revenue" articles))
               (List.length (bucket_of "acquisition" articles))
               (List.length (bucket_of "funding" articles))
               (List.length (bucket_of "new_company" articles)))
    (buckets_of articles).

(** What [run_monthly_report_via] does after [fetch_all_news] returned. *)
Definition after_fetch_via (E : env) (writer : string -> workbook -> M unit)
    (articles : list article) : M (option string) :=
  match articles with
  | [] =>
      print NoArticles ;;
      ret None
  | _ =>
      categorized <- process_articles articles ;;
      filename <- create_excel_report_via E writer categorized ;;
      print (Text (newline ++ rule 70)) ;;
      print (Text (spaces 25 ++ "REPORT COMPLETE!")) ;;
      print (Text (rule 70)) ;;
      ret (Some filename)
  end.

(** [s] is at the end of a token: it is empty or starts with whitespace. *)
Definition at_boundary (s : string) : Prop :=
  match s with
  | EmptyString => True
  | String c _ => Str.isspace c = true
  end.

(** [tokens_of s ts]: [ts] are the whitespace-separated tokens of [s],
    read from the left.  Whitespace is passed over; a token is a run of
    characters that is not empty, holds no whitespace and ends where the
    text ends or whitespace follows. *)
Inductive tokens_of : string -> list string -> Prop :=
| tokens_end : tokens_of EmptyString []
| tokens_skip (c : ascii) (s : string) (ts : list string) :
    Str.isspace c = true -> tokens_of s ts -> tokens_of (String c s) ts
| tokens_word (t s : string) (ts : list string) :
    t <> EmptyString -> no_space t = true -> at_boundary s ->
    tokens_of s ts -> tokens_of (t ++ s) (t :: ts).

(** [first] followed by each of [others] with one space before it. *)
Definition single_spaced (first : string) (others : list string) : string :=
  fold_left (fun acc w => (acc ++ " " ++ w)%string) others first.

(** A writer that finds the disk full: nothing is written. *)
Definition refusing_writer : string -> workbook -> M unit :=
  fun _ _ w => (Raise OSError, w).

(** A day on which every feed has one entry that matches no phrase. *)
Definition quiet_env : env :=
  mkEnv 739924 sample_strftime
        (fun _ => Ok [mkEntry (Some "Nothing here") None None None]).

(** A day on which the first feed is interrupted from the keyboard. *)
Definition interrupted_env : env :=
  mkEnv 739924 sample_strftime
        (fun feed_url =>
           if String.eqb feed_url "https://www.fiercebiotech.com/rss/xml"
           then Raise KeyboardInterrupt else Ok sample_entries).

(* ------------------------------------------------------------------ *)
(** * Properties *)

(** ** Strings *)

Section StringFacts.

Lemma append_empty_r (s : string) : (s ++ "")%string = s.
Proof.
  induction s as [|c s IH]; simpl; [reflexivity | now rewrite IH].
Qed.

Lemma append_assoc (a b c : string) :
  ((a ++ b) ++ c)%string = (a ++ b ++ c)%string.
Proof.
  induction a as [|x a IH]; simpl; [reflexivity | now rewrite IH].
Qed.

Lemma append_not_empty (s : string) (c : ascii) :
  (s ++ String c "")%string <> "".
Proof. destruct s; discriminate. Qed.

Lemma length_append (a b : string) :
  String.length (a ++ b) = (String.length a + String.length b)%nat.
Proof.
  induction a as [|x a IH]; simpl; [reflexivity | now rewrite IH].
Qed.

Lemma lower_append (a b : string) :
  Str.lower (a ++ b) = (Str.lower a ++ Str.lower b)%string.
Proof.
  induction a as [|x a IH]; simpl; [reflexivity | now rewrite IH].
Qed.

(** A split of the lowercase form comes from a split of the string. *)
Lemma lower_split (s a b : string) :
  Str.lower s = (a ++ b)%string ->
  exists a' b', s = (a' ++ b')%string
                /\ Str.lower a' = a /\ Str.lower b' = b.
Proof.
  revert s; induction a as [|x a IH]; intros s H.
  - exists "", s. simpl in *. auto.
  - destruct s as [|c s]; simpl in H; [discriminate|].
    injection H as Hc Hs.
    destruct (IH _ Hs) as (a' & b' & -> & Ha & Hb).
    exists (String c a'), b'. simpl. now rewrite Hc, Ha.
Qed.

Lemma startswith_iff (p s : string) :
  Str.startswith p s = true <-> exists r, s = (p ++ r)%string.
Proof.
  revert s; induction p as [|a p IH]; intros s; simpl.
  - split; [intros _; now exists s | reflexivity].
  - destruct s as [|b s].
    + split; [discriminate | intros [r H]; discriminate].
    + rewrite andb_true_iff, Ascii.eqb_eq, IH. split.
      * intros [-> [r ->]]. now exists r.
      * intros [r H]. injection H as -> ->. split; [reflexivity|now exists r].
Qed.

(** [p in s] holds exactly when [s] is [pre ++ p ++ post]. *)
Lemma contains_iff (p s : string) :
  Str.contains p s = true
  <-> exists pre post, s = (pre ++ p ++ post)%string.
Proof.
  induction s as [|c s IH].
  - simpl. rewrite orb_false_r, startswith_iff. split.
    + intros [r H]. now exists "", r.
    + intros (pre & post & H). destruct pre; [now exists post|discriminate].
  - cbn [Str.contains]. rewrite orb_true_iff, startswith_iff, IH. split.
    + intros [[r H] | (pre & post & H)].
      * now exists "", r.
      * exists (String c pre), post. simpl. now rewrite H.
    + intros (pre & post & H). destruct pre as [|x pre].
      * left. now exists post.
      * right. injection H as _ H. now exists pre, post.
Qed.

Lemma take_length (n : nat) (s : string) :
  String.length (Str.take n s) = Nat.min n (String.length s).
Proof.
  revert s; induction n as [|n IH]; intros [|c s]; simpl; auto.
Qed.

Lemma take_prefix (n : nat) (s : string) :
  exists rest, s = (Str.take n s ++ rest)%string.
Proof.
  revert s; induction n as [|n IH]; intros s.
  - exists s. now destruct s.
  - destruct s as [|c s]; [now exists ""|].
    destruct (IH s) as [rest H]. exists rest. simpl. now rewrite <- H.
Qed.

(** No token of [split] is empty. *)
Lemma split_from_nonempty (s cur : string) :
  Forall (fun w => w <> "") (Str.split_from cur s).
Proof.
  revert cur; induction s as [|c s IH]; intros cur; simpl.
  - destruct cur; constructor; [discriminate | constructor].
  - destruct (Str.isspace c).
    + destruct cur; [apply IH|]. constructor; [discriminate | apply IH].
    + apply IH.
Qed.

Lemma split_nonempty (s : string) :
  Forall (fun w => w <> "") (Str.split s).
Proof. apply split_from_nonempty. Qed.

Lemma no_space_snoc (s : string) (c : ascii) :
  no_space s = true -> Str.isspace c = false ->
  no_space (s ++ String c "") = true.
Proof.
  intros Hs Hc. induction s as [|x s IH]; simpl in *.
  - now rewrite Hc.
  - apply andb_true_iff in Hs as [-> Hs]. now rewrite IH.
Qed.

Lemma split_from_no_space (s cur : string) :
  no_space cur = true ->
  Forall (fun w => no_space w = true) (Str.split_from cur s).
Proof.
  revert cur; induction s as [|c s IH]; intros cur Hcur; simpl.
  - destruct cur; constructor; [assumption | constructor].
  - destruct (Str.isspace c) eqn:Hc.
    + destruct cur; [now apply IH|]. constructor; [assumption | now apply IH].
    + apply IH. now apply no_space_snoc.
Qed.

Lemma split_all_space (s : string) :
  all_space s = true -> Str.split s = [].
Proof.
  unfold Str.split. induction s as [|c s IH]; simpl; [reflexivity|].
  intros H. apply andb_true_iff in H as [-> H]. now apply IH.
Qed.

End StringFacts.

(* ------------------------------------------------------------------ *)
(** ** Company-name heuristic *)

Section Extractor.

(** On non-empty words the loop appends the leading qualifying words. *)
Lemma company_loop_take_while (words acc : list string) :
  Forall (fun w => w <> "") words ->
  company_loop words acc = Ok (acc ++ take_while qualifies words).
Proof.
  intros H; revert acc; induction H as [|w words Hw _ IH]; intros acc; simpl.
  - now rewrite app_nil_r.
  - destruct w as [|c w]; [contradiction|].
    cbn [index0 qualifies].
    destruct (Str.isupper c && (2 <? String.length (String c w))%nat).
    + rewrite IH, <- app_assoc. reflexivity.
    + now rewrite app_nil_r.
Qed.

Lemma firstn_nonempty (n : nat) (words : list string) :
  Forall (fun w => w <> "") words ->
  Forall (fun w => w <> "") (firstn n words).
Proof.
  intros H; revert n; induction H; intros [|n]; simpl; constructor; auto.
Qed.

Lemma extract_company_name_eq (text : string) :
  extract_company_name text = Ok (extractCompany text).
Proof.
  unfold extract_company_name, extractCompany.
  rewrite company_loop_take_while
    by (apply firstn_nonempty, split_nonempty).
  cbn [app].
  now destruct (take_while qualifies (firstn 5 (Str.split text))).
Qed.

Lemma index0_nonempty (word : string) :
  word <> "" -> exists c, index0 word = Ok c.
Proof. destruct word as [|c w]; [contradiction | now exists c]. Qed.

(** C4, as the code has it: all four tokens of the first title qualify,
    so the fourth is kept; the second title starts with a one-letter
    token. *)
Theorem extract_company_name_examples :
  extract_company_name "Moderna Announces New Vaccine"
    = Ok "Moderna Announces New Vaccine"
  /\ extract_company_name "A New Drug" = Ok "Unknown".
Proof. split; reflexivity. Qed.

(** C4 as stated does not hold. *)
Lemma extract_company_name_moderna_counterexample :
  ~ (extract_company_name "Moderna Announces New Vaccine"
       = Ok "Moderna Announces New"
     /\ extract_company_name "A New Drug" = Ok "Unknown").
Proof. intros [H _]. vm_compute in H. discriminate H. Qed.

(** C10: the extractor returns on every string; [word[0]] is defined for
    every token; without tokens, and so on the empty string and on
    whitespace alone, the result is ["Unknown"]. *)
Theorem extract_company_name_total (text : string) :
  (exists name, extract_company_name text = Ok name)
  /\ (forall word, In word (Str.split text) ->
        exists c, index0 word = Ok c)
  /\ (Str.split text = [] -> extract_company_name text = Ok "Unknown")
  /\ (all_space text = true -> extract_company_name text = Ok "Unknown").
Proof.
  assert (Hnil : Str.split text = [] ->
                 extract_company_name text = Ok "Unknown").
  { intros H. unfold extract_company_name. now rewrite H. }
  repeat split.
  - eexists. apply extract_company_name_eq.
  - intros word Hin. apply index0_nonempty.
    exact (proj1 (Forall_forall _ _) (split_nonempty text) word Hin).
  - exact Hnil.
  - intros H. apply Hnil. now apply split_all_space.
Qed.

Lemma extract_company_name_total_witness :
  extract_company_name "" = Ok "Unknown"
  /\ extract_company_name "   " = Ok "Unknown"
  /\ (exists c, index0 "Drug" = Ok c).
Proof.
  split; [|split].
  - apply (extract_company_name_total ""). reflexivity.
  - apply (extract_company_name_total "   "). reflexivity.
  - apply (extract_company_name_total "A New Drug"). simpl. auto.
Defined.

End Extractor.

(* ------------------------------------------------------------------ *)
(** ** Records *)

Section Records.

(** C8: the summary of a record is the article's summary when that has at
    most 200 characters, and its first 200 characters followed by ["..."]
    when it has more; the date is ["N/A"] for an empty [published] and its
    first 10 characters otherwise. *)
Theorem record_of_truncates (company : string) (a : article) :
  let r := record_of company a in
  ((String.length (a_summary a) <= 200)%nat -> Summary r = a_summary a)
  /\ ((200 < String.length (a_summary a))%nat ->
        Summary r = (Str.take 200 (a_summary a) ++ "...")%string
        /\ String.length (Str.take 200 (a_summary a)) = 200%nat
        /\ exists rest,
             a_summary a = (Str.take 200 (a_summary a) ++ rest)%string)
  /\ (a_published a = "" -> Date r = "N/A")
  /\ (a_published a <> "" ->
        Date r = Str.take 10 (a_published a)
        /\ String.length (Date r)
           = Nat.min 10 (String.length (a_published a))
        /\ exists rest,
             a_published a = (Str.take 10 (a_published a) ++ rest)%string).
Proof.
  cbn [record_of Summary Date]. unfold truncate, date_of. repeat split.
  - intros H. apply Nat.ltb_ge in H. now rewrite H.
  - apply Nat.ltb_lt in H. now rewrite H.
  - rewrite take_length. lia.
  - apply take_prefix.
  - intros ->. reflexivity.
  - destruct (a_published a); [contradiction | reflexivity].
  - destruct (a_published a); [contradiction | apply take_length].
  - apply take_prefix.
Qed.

Lemma record_of_truncates_witness :
  Summary (record_of "Acme" (mkArticle "t" "l" "2025-03-01T10:00:00Z"
                                       "short" "s")) = "short"
  /\ Date (record_of "Acme" (mkArticle "t" "l" "2025-03-01T10:00:00Z"
                                       "short" "s")) = "2025-03-01"
  /\ Date (record_of "Acme" (mkArticle "t" "l" "" "short" "s")) = "N/A".
Proof.
  split; [|split].
  - apply (record_of_truncates "Acme"
             (mkArticle "t" "l" "2025-03-01T10:00:00Z" "short" "s")).
    simpl. lia.
  - apply (record_of_truncates "Acme"
             (mkArticle "t" "l" "2025-03-01T10:00:00Z" "short" "s")).
    simpl. discriminate.
  - apply (record_of_truncates "Acme" (mkArticle "t" "l" "" "short" "s")).
    reflexivity.
Defined.

End Records.

(* ------------------------------------------------------------------ *)
(** ** Classifier *)

Section Classifier.

(** The loop keeps, in table order, the categories with a matching phrase. *)
Lemma categorize_fold (text : string) (table : list (string * list string))
    (acc : list string) :
  fold_left (categorize_step text) table acc
  = acc ++ map fst (filter (fun item => any_keyword_in (snd item) text) table).
Proof.
  revert acc; induction table as [|[category kws] table IH]; intros acc.
  - simpl. now rewrite app_nil_r.
  - cbn [fold_left categorize_step filter snd]. rewrite IH.
    destruct (any_keyword_in kws text); cbn [map fst].
    + now rewrite <- app_assoc.
    + reflexivity.
Qed.

Lemma categorize_article_filter (a : article) :
  categorize_article a
  = map fst (filter (fun item => any_keyword_in (snd item) (search_text a))
                    keywords).
Proof. unfold categorize_article. now rewrite categorize_fold. Qed.

(** Every phrase of the table is its own lowercase form. *)
Lemma keywords_lowercase (category : string) (kws : list string)
    (kw : string) :
  In (category, kws) keywords -> In kw kws -> Str.lower kw = kw.
Proof.
  assert (H : Forall (fun item =>
                        Forall (fun kw => Str.lower kw = kw) (snd item))
                     keywords)
    by (repeat constructor).
  intros Hc Hk.
  apply (proj1 (Forall_forall _ _) H) in Hc.
  exact (proj1 (Forall_forall _ _) Hc kw Hk).
Qed.

(** A lowercase phrase is in the folded text exactly when it occurs in
    the text up to case. *)
Lemma contains_lower_iff (kw text : string) :
  Str.lower kw = kw ->
  Str.contains kw (Str.lower text) = true <-> occurs_ci kw text.
Proof.
  intros Hkw. rewrite contains_iff. unfold occurs_ci. split.
  - intros (pre & post & H).
    apply lower_split in H as (pre' & r & -> & Hpre & Hr).
    apply lower_split in Hr as (mid & post' & -> & Hmid & Hpost).
    exists pre', mid, post'. split; [reflexivity | congruence].
  - intros (pre & mid & post & -> & H).
    exists (Str.lower pre), (Str.lower post).
    rewrite !lower_append. congruence.
Qed.

Lemma categorize_article_In (a : article) (category : string) :
  In category (categorize_article a) <-> category_matches category a.
Proof.
  rewrite categorize_article_filter, in_map_iff. unfold category_matches.
  split.
  - intros ([c kws] & Hc & Hin). simpl in Hc; subst c.
    apply filter_In in Hin as [Hin Hany]. cbn [snd] in Hany.
    apply existsb_exists in Hany as (kw & Hkw & Hcontains).
    exists kws, kw. repeat split; try assumption.
    apply contains_lower_iff; [|exact Hcontains].
    eapply keywords_lowercase; eassumption.
  - intros (kws & kw & Hin & Hkw & Hocc).
    exists (category, kws). split; [reflexivity|].
    apply filter_In. split; [assumption|]. cbn [snd].
    apply existsb_exists. exists kw. split; [assumption|].
    apply contains_lower_iff; [|exact Hocc].
    eapply keywords_lowercase; eassumption.
Qed.

(** C1: a category is in the result of the classifier exactly when one of
    its phrases occurs, up to case, in title, space, summary; the result is
    empty when no phrase of any category occurs. *)
Theorem categorize_article_iff_keyword (a : article) :
  (forall category,
     In category (categorize_article a) <-> category_matches category a)
  /\ ((forall category, ~ category_matches category a) ->
      categorize_article a = []).
Proof.
  split; [apply categorize_article_In|].
  intros Hnone. destruct (categorize_article a) as [|c l] eqn:Hc.
  - reflexivity.
  - exfalso. apply (Hnone c), categorize_article_In.
    rewrite Hc. now left.
Qed.

Lemma categorize_article_iff_keyword_witness :
  In "revenue"
     (categorize_article (mkArticle "Acme posts Q1 Earnings" "" "" "" ""))
  /\ categorize_article (mkArticle "Nothing" "" "" "here" "") = [].
Proof.
  split.
  - apply (proj1 (categorize_article_iff_keyword _)).
    eexists; exists "q1". split; [left; reflexivity|].
    split; [simpl; auto|].
    exists "Acme posts ", "Q1", " Earnings ". split; reflexivity.
  - apply (proj2 (categorize_article_iff_keyword _)).
    intros c H. apply (proj1 (categorize_article_iff_keyword _)) in H.
    exact H.
Defined.

End Classifier.

(* ------------------------------------------------------------------ *)
(** ** The monad *)

Section Effects.

Lemma log_log (a b : list line) (w : world) :
  log b (log a w) = log (a ++ b) w.
Proof. unfold log; simpl. now rewrite app_assoc. Qed.

Lemma log_nil (w : world) : log [] w = w.
Proof. destruct w. unfold log; simpl. now rewrite app_nil_r. Qed.

Lemma files_log (ls : list line) (w : world) : files (log ls w) = files w.
Proof. reflexivity. Qed.

Lemma logs_only_ret {A : Type} (a : A) : logs_only (ret a).
Proof. exists (Ok a), []. intros w. unfold ret. now rewrite log_nil. Qed.

Lemma logs_only_lift {A : Type} (r : result A) : logs_only (lift r).
Proof. exists r, []. intros w. unfold lift. now rewrite log_nil. Qed.

Lemma logs_only_print (l : line) : logs_only (print l).
Proof. exists (Ok tt), [l]. reflexivity. Qed.

Lemma logs_only_bind {A B : Type} (m : M A) (k : A -> M B) :
  logs_only m -> (forall a, logs_only (k a)) -> logs_only (bind m k).
Proof.
  intros (r & ls & Hm) Hk. destruct r as [a|e].
  - destruct (Hk a) as (r' & ls' & Hka). exists r', (ls ++ ls').
    intros w. unfold bind. now rewrite Hm, Hka, log_log.
  - exists (Raise e), ls. intros w. unfold bind. now rewrite Hm.
Qed.

Lemma logs_only_try {A : Type} (body : M A) (handler : exn -> M A) :
  logs_only body -> (forall e, logs_only (handler e)) ->
  logs_only (try_except body handler).
Proof.
  intros (r & ls & Hb) Hh. destruct r as [a|e].
  - exists (Ok a), ls. intros w. unfold try_except. now rewrite Hb.
  - destruct (is_Exception e) eqn:He.
    + destruct (Hh e) as (r' & ls' & Hhe). exists r', (ls ++ ls').
      intros w. unfold try_except. now rewrite Hb, He, Hhe, log_log.
    + exists (Raise e), ls. intros w. unfold try_except. now rewrite Hb, He.
Qed.

Lemma logs_only_for_each {A S : Type} (l : list A) (body : S -> A -> M S)
    (acc : S) :
  (forall acc x, logs_only (body acc x)) -> logs_only (for_each l acc body).
Proof.
  intros Hbody. revert acc; induction l as [|x l IH]; intros acc; simpl.
  - apply logs_only_ret.
  - apply logs_only_bind; [apply Hbody | intros a; apply IH].
Qed.

(** Two loops whose bodies agree agree. *)
Lemma for_each_ext {A S : Type} (l : list A) (b1 b2 : S -> A -> M S)
    (acc : S) (w : world) :
  (forall acc x w, b1 acc x w = b2 acc x w) ->
  for_each l acc b1 w = for_each l acc b2 w.
Proof.
  intros H. revert acc w; induction l as [|x l IH]; intros acc w; simpl.
  - reflexivity.
  - unfold bind. rewrite H. destruct (b2 acc x w) as [[a|e] w']; auto.
Qed.

End Effects.

Create HintDb logs discriminated.
#[export] Hint Resolve logs_only_ret logs_only_lift logs_only_print
  logs_only_bind logs_only_try logs_only_for_each : logs.

(* ------------------------------------------------------------------ *)
(** ** Fetcher *)

Section Fetcher.

Variable E : env.

Lemma cutoff_date_ok (days_back : Z) :
  in_calendar E days_back ->
  cutoff_date E days_back = Ok (today E - days_back)%Z.
Proof.
  intros [Habs [Hlo Hhi]]. unfold cutoff_date, timedelta, datetime_sub.
  apply Z.leb_le in Habs, Hlo, Hhi. now rewrite Habs, Hlo, Hhi.
Qed.

Lemma cutoff_date_raises (days_back : Z) :
  ~ in_calendar E days_back ->
  cutoff_date E days_back = Raise OverflowError.
Proof.
  intros H. unfold cutoff_date, timedelta, datetime_sub.
  destruct (Z.abs days_back <=? 999999999)%Z eqn:Habs; [|reflexivity].
  destruct (1 <=? today E - days_back)%Z eqn:Hlo; [|reflexivity].
  destruct (today E - days_back <=? MAXORDINAL)%Z eqn:Hhi; [|reflexivity].
  exfalso. apply H. apply Z.leb_le in Habs, Hlo, Hhi. repeat split; assumption.
Qed.

Lemma append_entries_map (source_name : string) (entries : list entry)
    (articles : list article) :
  append_entries source_name entries articles
  = articles ++ map (article_of source_name) entries.
Proof.
  unfold append_entries.
  revert articles; induction entries as [|en entries IH]; intros articles.
  - simpl. now rewrite app_nil_r.
  - simpl. rewrite IH, <- app_assoc. reflexivity.
Qed.

(** What [fetch_news_from_feed] does once the cutoff date is computed. *)
Lemma fetch_in_calendar (feed_url source_name : string) (days_back : Z)
    (w : world) :
  in_calendar E days_back ->
  fetch_news_from_feed E feed_url source_name days_back w
  = match parse E feed_url with
    | Ok feed =>
        let articles := map (article_of source_name) (firstn 100 feed) in
        (Ok articles,
         log [Fetching source_name; Found (List.length articles)] w)
    | Raise e =>
        if is_Exception e
        then (Ok [], log [Fetching source_name; ErrorFetching source_name e] w)
        else (Raise e, log [Fetching source_name] w)
    end.
Proof.
  intros Hd. unfold fetch_news_from_feed, bind, lift, try_except, print, ret.
  rewrite (cutoff_date_ok _ Hd). cbn [stdout files].
  destruct (parse E feed_url) as [feed|e].
  - rewrite append_entries_map. cbn [app]. unfold log.
    now rewrite <- app_assoc.
  - destruct (is_Exception e); unfold log; cbn [stdout files].
    + now rewrite <- app_assoc.
    + reflexivity.
Qed.

Lemma fetch_out_of_calendar (feed_url source_name : string) (days_back : Z)
    (w : world) :
  ~ in_calendar E days_back ->
  fetch_news_from_feed E feed_url source_name days_back w
  = (Raise OverflowError, w).
Proof.
  intros Hd. unfold fetch_news_from_feed, bind, lift.
  now rewrite (cutoff_date_raises _ Hd).
Qed.

Lemma fetch_logs_only (feed_url source_name : string) (days_back : Z) :
  logs_only (fetch_news_from_feed E feed_url source_name days_back).
Proof. unfold fetch_news_from_feed. auto 10 with logs. Qed.

Lemma fetch_all_logs_only (days_back : Z) :
  logs_only (fetch_all_news E days_back).
Proof.
  unfold fetch_all_news.
  do 3 (apply logs_only_bind; [apply logs_only_print | intros _]).
  apply logs_only_bind; [|auto with logs].
  apply logs_only_for_each. intros acc [source_name feed_url].
  apply logs_only_bind; [apply fetch_logs_only | auto with logs].
Qed.

(** With every failure an [Exception], the loop over the feeds adds what
    each feed contributes. *)
Lemma for_each_feeds_collects (days_back : Z) (fs : list (string * string))
    (acc : list article) :
  in_calendar E days_back -> feeds_fail_softly E ->
  exists ls, forall w,
    for_each fs acc
      (fun all_articles '(source_name, feed_url) =>
         articles <- fetch_news_from_feed E feed_url source_name days_back ;;
         ret (all_articles ++ articles)) w
    = (Ok (acc ++ flat_map (feed_articles E) fs), log ls w).
Proof.
  intros Hd Hsoft. revert acc.
  induction fs as [|[source_name feed_url] fs IH]; intros acc.
  - exists []. intros w. simpl. unfold ret. now rewrite app_nil_r, log_nil.
  - cbn [for_each flat_map feed_articles].
    destruct (parse E feed_url) as [feed|e] eqn:Hp.
    + destruct (IH (acc ++ map (article_of source_name) (firstn 100 feed)))
        as [ls Hls].
      eexists. intros w. unfold bind at 1 2.
      rewrite (fetch_in_calendar _ _ _ _ Hd), Hp. cbn zeta. unfold ret at 1.
      rewrite Hls, log_log, <- app_assoc. reflexivity.
    + destruct (IH (acc ++ [])) as [ls Hls].
      eexists. intros w. unfold bind at 1 2.
      rewrite (fetch_in_calendar _ _ _ _ Hd), Hp, (Hsoft _ _ Hp).
      unfold ret at 1.
      rewrite Hls, log_log, app_nil_r. reflexivity.
Qed.

Lemma fetch_all_news_collects (days_back : Z) :
  in_calendar E days_back -> feeds_fail_softly E ->
  exists ls, forall w,
    fetch_all_news E days_back w = (Ok (collected E), log ls w).
Proof.
  intros Hd Hsoft.
  destruct (for_each_feeds_collects days_back feeds [] Hd Hsoft) as [ls Hls].
  exists ([Text (newline ++ rule 60); Text "COLLECTING NEWS FROM SOURCES";
           Text (rule 60)]
          ++ ls ++ [TotalCollected (List.length (collected E))]).
  intros w. unfold fetch_all_news.
  unfold bind at 1 2 3 4, print at 1 2 3.
  rewrite Hls. unfold bind, print, ret, log, collected.
  cbn [stdout files app]. do 2 f_equal.
  now rewrite <- !app_assoc.
Qed.

(** The fetcher does not look at [days_back] beyond computing the cutoff. *)
Lemma fetch_days_back_irrelevant (feed_url source_name : string)
    (d1 d2 : Z) (w : world) :
  in_calendar E d1 -> in_calendar E d2 ->
  fetch_news_from_feed E feed_url source_name d1 w
  = fetch_news_from_feed E feed_url source_name d2 w.
Proof. intros H1 H2. now rewrite !fetch_in_calendar. Qed.

Lemma fetch_all_days_back_irrelevant (d1 d2 : Z) (w : world) :
  in_calendar E d1 -> in_calendar E d2 ->
  fetch_all_news E d1 w = fetch_all_news E d2 w.
Proof.
  intros H1 H2. unfold fetch_all_news, bind at 1 2 3.
  unfold bind at 4 5 6. unfold print at 1 2 3 5 6 7.
  unfold bind at 1 3.
  erewrite for_each_ext; [reflexivity|].
  intros acc [source_name feed_url] w'. unfold bind.
  now rewrite (fetch_days_back_irrelevant _ _ d1 d2).
Qed.

(** C9: when the feed parses, the fetcher returns one article for each of
    the first 100 entries, in feed order, with the fields of the entry,
    a missing field read as the empty string. *)
Theorem fetch_first_100_entries (feed_url source_name : string)
    (days_back : Z) (w : world) (feed : list entry) :
  in_calendar E days_back ->
  parse E feed_url = Ok feed ->
  exists articles w',
    fetch_news_from_feed E feed_url source_name days_back w
    = (Ok articles, w')
    /\ List.length articles = Nat.min 100 (List.length feed)
    /\ (List.length articles <= 100)%nat
    /\ forall i en,
         (i < 100)%nat -> nth_error feed i = Some en ->
         exists a,
           nth_error articles i = Some a
           /\ a_title a = match e_title en with Some v => v | None => "" end
           /\ a_link a = match e_link en with Some v => v | None => "" end
           /\ a_published a
              = match e_published en with Some v => v | None => "" end
           /\ a_summary a
              = match e_summary en with Some v => v | None => "" end
           /\ a_source a = source_name.
Proof.
  intros Hd Hp. rewrite (fetch_in_calendar _ _ _ _ Hd), Hp. cbn zeta.
  do 2 eexists. split; [reflexivity|].
  rewrite length_map, length_firstn. split; [reflexivity|].
  split; [apply Nat.le_min_l|].
  intros i en Hi Hen. exists (article_of source_name en).
  rewrite nth_error_map, nth_error_firstn.
  apply Nat.ltb_lt in Hi. rewrite Hi, Hen. repeat split.
Qed.

(** C6: when parsing the feed raises an [Exception], the fetcher prints the
    warning for this source, writes nothing and returns no article; and
    with every feed failing that way or parsing, the loop over all feeds
    returns. *)
Theorem fetch_failure_is_caught (feed_url source_name : string)
    (days_back : Z) (w : world) (e : exn) :
  in_calendar E days_back ->
  parse E feed_url = Raise e ->
  is_Exception e = true ->
  fetch_news_from_feed E feed_url source_name days_back w
  = (Ok [], log [Fetching source_name; ErrorFetching source_name e] w)
  /\ (feeds_fail_softly E ->
      exists w', fetch_all_news E days_back w = (Ok (collected E), w')).
Proof.
  intros Hd Hp He. split.
  - now rewrite (fetch_in_calendar _ _ _ _ Hd), Hp, He.
  - intros Hsoft.
    destruct (fetch_all_news_collects days_back Hd Hsoft) as [ls Hls].
    eexists. apply Hls.
Qed.

End Fetcher.

(* ------------------------------------------------------------------ *)
(** ** Buckets and the aggregator *)

Section Aggregator.

Lemma total_count_from (vs : list (list record)) (n : nat) :
  fold_left (fun acc v => (acc + List.length v)%nat) vs n
  = (n + list_sum (map (@List.length record) vs))%nat.
Proof.
  revert n; induction vs as [|v vs IH]; intros n; simpl.
  - lia.
  - rewrite IH. lia.
Qed.

Lemma total_count_sum (d : dict) :
  total_count d = list_sum (map (fun kv => List.length (snd kv)) d).
Proof.
  unfold total_count, values. rewrite total_count_from, map_map. reflexivity.
Qed.

Lemma dict_get_In (k : string) (d : dict) :
  In k (map fst d) -> exists v, dict_get k d = Ok v.
Proof.
  induction d as [|[k' v] d IH]; simpl; [contradiction|].
  intros [-> | H].
  - rewrite String.eqb_refl. now exists v.
  - destruct (String.eqb k k'); [now exists v | auto].
Qed.

(** Without repeated keys, the counts looked up key by key add up to the
    sum over the values. *)
Lemma sum_by_keys (d : dict) :
  NoDup (map fst d) ->
  list_sum (map (len_get d) (map fst d))
  = list_sum (map (fun kv => List.length (snd kv)) d).
Proof.
  induction d as [|[k v] d IH]; [reflexivity|].
  cbn [map fst snd]. intros Hnd.
  change (list_sum (?x :: ?l)) with (x + list_sum l)%nat.
  apply NoDup_cons_iff in Hnd as [Hk Hnd].
  unfold len_get at 1. cbn [dict_get]. rewrite String.eqb_refl.
  f_equal. rewrite <- (IH Hnd).
  f_equal. apply map_ext_in. intros k' Hk'.
  unfold len_get. cbn [dict_get].
  destruct (String.eqb_spec k' k) as [->|_]; [contradiction | reflexivity].
Qed.

Lemma list_sum_Permutation (l l' : list nat) :
  Permutation l l' -> list_sum l = list_sum l'.
Proof. induction 1; simpl; lia. Qed.

Lemma NoDup_bucket_keys : NoDup bucket_keys.
Proof.
  unfold bucket_keys.
  repeat (constructor; [simpl; intuition discriminate|]). constructor.
Qed.

(** A dictionary with the four keys: each lookup succeeds and the total
    is the sum of the four lengths. *)
Lemma four_buckets (d : dict) :
  Permutation (map fst d) bucket_keys ->
  exists r a f n,
    dict_get "revenue" d = Ok r
    /\ dict_get "acquisitions" d = Ok a
    /\ dict_get "funding" d = Ok f
    /\ dict_get "new_companies" d = Ok n
    /\ total_count d
       = (List.length r + List.length a + List.length f + List.length n)%nat.
Proof.
  intros Hp.
  assert (Hin : forall k, In k bucket_keys -> In k (map fst d))
    by (intros k Hk; eapply Permutation_in; [symmetry|]; eassumption).
  destruct (dict_get_In "revenue" d) as [r Hr]; [apply Hin; simpl; auto|].
  destruct (dict_get_In "acquisitions" d) as [a Ha];
    [apply Hin; simpl; auto|].
  destruct (dict_get_In "funding" d) as [f Hf]; [apply Hin; simpl; auto|].
  destruct (dict_get_In "new_companies" d) as [n Hn];
    [apply Hin; simpl; auto 6|].
  exists r, a, f, n. repeat (split; [assumption|]).
  rewrite total_count_sum, <- sum_by_keys.
  - rewrite (list_sum_Permutation _ _ (Permutation_map (len_get d) Hp)).
    unfold bucket_keys, len_get. cbn [map list_sum fold_right].
    rewrite Hr, Ha, Hf, Hn. lia.
  - eapply Permutation_NoDup; [symmetry; exact Hp | apply NoDup_bucket_keys].
Qed.

(** The classifier returns as many labels as the tests of
    [process_articles] find. *)
Lemma categorize_article_length (a : article) :
  let categories := categorize_article a in
  List.length categories
  = (Nat.b2n (Str.mem "revenue" categories)
     + Nat.b2n (Str.mem "acquisition" categories)
     + Nat.b2n (Str.mem "funding" categories)
     + Nat.b2n (Str.mem "new_company" categories))%nat.
Proof.
  cbv zeta. rewrite categorize_article_filter. unfold keywords.
  cbn [filter snd].
  repeat match goal with
         | |- context [any_keyword_in ?k ?t] => destruct (any_keyword_in k t)
         end; reflexivity.
Qed.

(** One article: no [KeyError], the keys stay, and the total grows by the
    number of its categories. *)
Lemma process_article_ok (d : dict) (a : article) :
  map fst d = bucket_keys ->
  exists d',
    process_article d a = Ok d'
    /\ map fst d' = bucket_keys
    /\ total_count d'
       = (total_count d + List.length (categorize_article a))%nat.
Proof.
  intros Hk. rewrite categorize_article_length. unfold process_article.
  rewrite extract_company_name_eq.
  destruct d as [|[k1 v1] [|[k2 v2] [|[k3 v3] [|[k4 v4] [|? ?]]]]];
    try discriminate Hk.
  injection Hk as -> -> -> ->.
  unfold add_if.
  destruct (Str.mem "revenue" (categorize_article a));
    destruct (Str.mem "acquisition" (categorize_article a));
    destruct (Str.mem "funding" (categorize_article a));
    destruct (Str.mem "new_company" (categorize_article a));
    cbn [dict_append String.eqb Ascii.eqb Bool.eqb andb];
    (eexists; split; [reflexivity|]; split; [reflexivity|]);
    rewrite !total_count_sum; cbn [map snd list_sum fold_right Nat.b2n];
    rewrite ?length_app; simpl; lia.
Qed.

Lemma process_loop_ok (articles : list article) (d : dict) :
  map fst d = bucket_keys ->
  exists d',
    (forall w,
       for_each articles d (fun categorized a =>
                              lift (process_article categorized a)) w
       = (Ok d', w))
    /\ map fst d' = bucket_keys
    /\ total_count d'
       = (total_count d
          + list_sum (map (fun a => List.length (categorize_article a))
                          articles))%nat.
Proof.
  revert d; induction articles as [|a articles IH]; intros d Hk.
  - exists d. simpl. repeat split; [assumption | lia].
  - destruct (process_article_ok d a Hk) as (d1 & H1 & Hk1 & Ht1).
    destruct (IH d1 Hk1) as (d' & Hrun & Hk' & Ht').
    exists d'. repeat split; [|assumption|simpl; lia].
    intros w. cbn [for_each]. unfold bind, lift. rewrite H1. apply Hrun.
Qed.

End Aggregator.

(* ------------------------------------------------------------------ *)
(** ** Report writer and orchestrator *)

Section Orchestrator.

Variable E : env.

(** Unfolds a straight run of prints and puts the printed lines in one
    list. *)
Ltac run_prints :=
  unfold bind, print, print_count, save, lift, ret, log;
  cbn [stdout files];
  rewrite <- ?app_assoc; cbn [app].

Lemma process_articles_ok (articles : list article) :
  exists d ls,
    (forall w, process_articles articles w = (Ok d, log ls w))
    /\ map fst d = bucket_keys
    /\ total_count d = matches_total articles.
Proof.
  destruct (process_loop_ok articles empty_buckets eq_refl)
    as (d & Hrun & Hk & Ht).
  destruct (four_buckets d) as (r & a & f & n & Hr & Ha & Hf & Hn & _);
    [rewrite Hk; apply Permutation_refl|].
  exists d. eexists. split; [|split; [assumption | exact Ht]].
  intros w. unfold process_articles.
  unfold bind at 1 2 3 4, print at 1 2 3. rewrite Hrun. cbv beta iota.
  unfold print_count. rewrite Hr, Ha, Hf, Hn. run_prints. reflexivity.
Qed.

Lemma summary_rows_four (d : dict) :
  Permutation (map fst d) bucket_keys ->
  exists r a f n,
    dict_get "revenue" d = Ok r
    /\ dict_get "acquisitions" d = Ok a
    /\ dict_get "funding" d = Ok f
    /\ dict_get "new_companies" d = Ok n
    /\ summary_rows d
       = Ok (five_rows (List.length r) (List.length a) (List.length f)
                       (List.length n)).
Proof.
  intros Hp.
  destruct (four_buckets d Hp) as (r & a & f & n & Hr & Ha & Hf & Hn & Ht).
  exists r, a, f, n. repeat (split; [assumption|]).
  unfold summary_rows, five_rows. now rewrite Hr, Ha, Hf, Hn, Ht.
Qed.

Lemma create_excel_report_ok (d : dict) (rows : list (string * nat)) :
  summary_rows d = Ok rows ->
  exists ls, forall w,
    create_excel_report E d w
    = (Ok (report_filename E),
       mkWorld (stdout w ++ ls)
               (files w ++ [(report_filename E, workbook_of E rows d)])).
Proof.
  intros Hrows. eexists. intros w.
  unfold create_excel_report, create_excel_report_via.
  rewrite Hrows. run_prints. reflexivity.
Qed.

(** After an empty fetch: the warning, no workbook, [None]. *)
Lemma after_fetch_nil (w : world) :
  after_fetch E [] w = (Ok None, log [NoArticles] w).
Proof. reflexivity. Qed.

(** After a fetch that found articles: one workbook, under the name that
    is returned. *)
Lemma after_fetch_cons (a : article) (articles : list article) :
  exists d rows ls,
    map fst d = bucket_keys
    /\ total_count d = matches_total (a :: articles)
    /\ summary_rows d = Ok rows
    /\ forall w,
         after_fetch E (a :: articles) w
         = (Ok (Some (report_filename E)),
            mkWorld (stdout w ++ ls)
                    (files w ++ [(report_filename E, workbook_of E rows d)])).
Proof.
  destruct (process_articles_ok (a :: articles)) as (d & ls1 & Hp & Hk & Ht).
  destruct (summary_rows_four d) as (r & ac & f & n & _ & _ & _ & _ & Hrows);
    [rewrite Hk; apply Permutation_refl|].
  destruct (create_excel_report_ok d _ Hrows) as (ls2 & Hc).
  exists d. do 2 eexists. repeat (split; [eassumption|]).
  intros w. unfold after_fetch. unfold bind at 1. rewrite Hp.
  unfold bind at 1. rewrite Hc. run_prints. reflexivity.
Qed.

Lemma small_formattable (days_back : Z) :
  (Z.abs days_back <= 999999999)%Z -> formattable days_back.
Proof.
  intros H. unfold formattable, int_max_str_digits.
  apply (Z.le_lt_trans _ 999999999); [exact H|].
  vm_compute. reflexivity.
Qed.

Lemma in_calendar_formattable (days_back : Z) :
  in_calendar E days_back -> formattable days_back.
Proof. intros [H _]. now apply small_formattable. Qed.

Lemma format_int_ok (n : Z) : formattable n -> format_int n = Ok n.
Proof.
  intros H. unfold format_int. apply Z.ltb_lt in H. now rewrite H.
Qed.

Lemma format_int_refused (n : Z) :
  ~ formattable n -> format_int n = Raise ValueError.
Proof.
  intros H. unfold format_int.
  destruct (Z.ltb_spec (Z.abs n) (10 ^ int_max_str_digits)) as [Hlt|_];
    [now contradiction H | reflexivity].
Qed.

Lemma run_via_unfold (writer : string -> workbook -> M unit)
    (days_back : Z) (w : world) :
  formattable days_back ->
  run_monthly_report_via E writer days_back w
  = bind (fetch_all_news E days_back) (after_fetch_via E writer)
         (log (banner E days_back) w).
Proof.
  intros Hfmt. unfold run_monthly_report_via, after_fetch_via, banner.
  unfold bind at 1 2 3 4 5, print at 1 2 3 4 5.
  unfold bind at 1, lift at 1. rewrite (format_int_ok _ Hfmt).
  unfold bind at 1 2, print at 1 2, log.
  cbn [stdout files]. rewrite <- !app_assoc. reflexivity.
Qed.

Lemma run_unfold (days_back : Z) (w : world) :
  formattable days_back ->
  run_monthly_report E days_back w
  = bind (fetch_all_news E days_back) (after_fetch E)
         (log (banner E days_back) w).
Proof.
  intros Hfmt. unfold run_monthly_report.
  rewrite (run_via_unfold save _ _ Hfmt). reflexivity.
Qed.

(** The result of the run and the workbooks it leaves, from the result
    of the fetch. *)
Lemma run_after_fetch (days_back : Z) (r : result (list article))
    (ls : list line) :
  formattable days_back ->
  (forall w, fetch_all_news E days_back w = (r, log ls w)) ->
  forall w,
    match r with
    | Raise e =>
        fst (run_monthly_report E days_back w) = Raise e
        /\ files (snd (run_monthly_report E days_back w)) = files w
    | Ok [] =>
        fst (run_monthly_report E days_back w) = Ok None
        /\ files (snd (run_monthly_report E days_back w)) = files w
    | Ok (a :: articles) =>
        fst (run_monthly_report E days_back w)
        = Ok (Some (report_filename E))
        /\ exists d rows,
             map fst d = bucket_keys
             /\ total_count d = matches_total (a :: articles)
             /\ summary_rows d = Ok rows
             /\ files (snd (run_monthly_report E days_back w))
                = files w ++ [(report_filename E, workbook_of E rows d)]
    end.
Proof.
  intros Hfmt Hf w. rewrite run_unfold by exact Hfmt. unfold bind.
  rewrite Hf.
  destruct r as [[|a articles]|e].
  - rewrite after_fetch_nil. split; reflexivity.
  - destruct (after_fetch_cons a articles)
      as (d & rows & ls' & Hk & Ht & Hrows & Hrun).
    rewrite Hrun. split; [reflexivity|]. exists d, rows.
    repeat (split; [assumption|]). reflexivity.
  - split; reflexivity.
Qed.

End Orchestrator.

(* ------------------------------------------------------------------ *)
(** ** The report and the run *)

Section Report.

(** C2: for buckets under the four keys, the Summary sheet written by the
    report has the five rows revenue, acquisitions, funding, new companies,
    total, the total being the sum of the four counts; and for the buckets
    [process_articles] builds, that total is the number of categories
    matched, added over the articles. *)
Theorem summary_sheet_rows (E : env) :
  (forall (d : dict) (w : world),
     Permutation (map fst d) bucket_keys ->
     exists r a f n ls,
       dict_get "revenue" d = Ok r
       /\ dict_get "acquisitions" d = Ok a
       /\ dict_get "funding" d = Ok f
       /\ dict_get "new_companies" d = Ok n
       /\ create_excel_report E d w
          = (Ok (report_filename E),
             mkWorld
               (stdout w ++ ls)
               (files w
                ++ [(report_filename E,
                     ("Summary",
                      CountSheet
                        [ ("Revenue Reports", List.length r);
                          ("Acquisitions", List.length a);
                          ("Funding Rounds", List.length f);
                          ("New Companies", List.length n);
                          ("Total Articles",
                           (List.length r + List.length a
                            + List.length f + List.length n)%nat) ])
                     :: category_sheets d
                        ++ [("Metadata", FieldSheet (metadata_rows E))])])))
  /\ (forall (articles : list article) (w : world),
        exists d w' r a f n,
          process_articles articles w = (Ok d, w')
          /\ map fst d = bucket_keys
          /\ summary_rows d
             = Ok [ ("Revenue Reports", r); ("Acquisitions", a);
                    ("Funding Rounds", f); ("New Companies", n);
                    ("Total Articles", (r + a + f + n)%nat) ]
          /\ (r + a + f + n)%nat
             = list_sum (map (fun x => List.length (categorize_article x))
                             articles)).
Proof.
  split.
  - intros d w Hp.
    destruct (summary_rows_four d Hp)
      as (r & a & f & n & Hr & Ha & Hf & Hn & Hrows).
    destruct (create_excel_report_ok E d _ Hrows) as [ls Hc].
    exists r, a, f, n, ls. repeat (split; [assumption|]). apply Hc.
  - intros articles w.
    destruct (process_articles_ok articles) as (d & ls & Hrun & Hk & Ht).
    destruct (four_buckets d) as (r & a & f & n & Hr & Ha & Hf & Hn & Hsum);
      [rewrite Hk; apply Permutation_refl|].
    exists d, (log ls w), (List.length r), (List.length a),
      (List.length f), (List.length n).
    split; [apply Hrun|]. split; [assumption|]. split.
    + unfold summary_rows. now rewrite Hr, Ha, Hf, Hn, Hsum.
    + rewrite <- Hsum. exact Ht.
Qed.

Lemma summary_sheet_rows_witness :
  fst (create_excel_report sample_env
         [ ("funding", [record_of "Acme" (mkArticle "t" "l" "" "s" "x")]);
           ("revenue", []); ("new_companies", []); ("acquisitions", []) ]
         empty_world)
  = Ok "Biotech_Pharma_Report_2026-11.xlsx".
Proof.
  destruct (proj1 (summary_sheet_rows sample_env)
              [ ("funding", [record_of "Acme" (mkArticle "t" "l" "" "s" "x")]);
                ("revenue", []); ("new_companies", []); ("acquisitions", []) ]
              empty_world)
    as (r & a & f & n & ls & _ & _ & _ & _ & H).
  - simpl. unfold bucket_keys.
    apply perm_trans with
      ["revenue"; "funding"; "new_companies"; "acquisitions"];
      [apply perm_swap|].
    apply perm_skip.
    apply perm_trans with ["funding"; "acquisitions"; "new_companies"];
      [apply perm_skip, perm_swap | apply perm_swap].
  - rewrite H. reflexivity.
Defined.

(** C5, as the code has it: for two values of [days_back] that lead from
    today to a date of the calendar, the article sequences of one feed and
    of all feeds are the same, and so are the result of the run and the
    workbooks it leaves. *)
Theorem days_back_not_a_filter (E : env) (feed_url source_name : string)
    (d1 d2 : Z) (w : world) :
  in_calendar E d1 -> in_calendar E d2 ->
  fetch_news_from_feed E feed_url source_name d1 w
  = fetch_news_from_feed E feed_url source_name d2 w
  /\ fetch_all_news E d1 w = fetch_all_news E d2 w
  /\ fst (run_monthly_report E d1 w) = fst (run_monthly_report E d2 w)
  /\ files (snd (run_monthly_report E d1 w))
     = files (snd (run_monthly_report E d2 w)).
Proof.
  intros H1 H2.
  split; [now apply fetch_days_back_irrelevant|].
  split; [now apply fetch_all_days_back_irrelevant|].
  destruct (fetch_all_logs_only E d1) as (r & ls & Hf1).
  assert (Hf2 : forall w', fetch_all_news E d2 w' = (r, log ls w')).
  { intros w'. rewrite <- Hf1. symmetry.
    now apply fetch_all_days_back_irrelevant. }
  rewrite !run_unfold by (eapply in_calendar_formattable; eassumption).
  unfold bind. rewrite Hf1, Hf2.
  destruct r as [[|a articles]|e].
  - rewrite !after_fetch_nil. split; reflexivity.
  - destruct (after_fetch_cons E a articles)
      as (d & rows & ls' & _ & _ & _ & Hrun).
    rewrite !Hrun. split; reflexivity.
  - split; reflexivity.
Qed.

End Report.

(* ------------------------------------------------------------------ *)
(** ** Closed instances *)

Section Instances.

Lemma sample_in_calendar (days_back : Z) :
  (0 <= days_back <= 739923)%Z -> in_calendar sample_env days_back.
Proof. unfold in_calendar, MAXORDINAL. cbn [today sample_env]. lia. Qed.

Lemma sample_fails_softly : feeds_fail_softly sample_env.
Proof.
  intros feed_url e. unfold sample_env; simpl.
  destruct (String.eqb feed_url "https://www.biospace.com/feed/").
  - discriminate.
  - intros H. injection H as <-. reflexivity.
Qed.

(** [timedelta] refuses a thousand million days, before the feed is read. *)
Lemma days_back_counterexample :
  fst (fetch_news_from_feed sample_env "https://www.biospace.com/feed/"
         "BioSpace" 30 empty_world)
  <> fst (fetch_news_from_feed sample_env "https://www.biospace.com/feed/"
            "BioSpace" 1000000000 empty_world).
Proof. vm_compute. discriminate. Qed.

Lemma days_back_not_a_filter_witness :
  fetch_news_from_feed sample_env "https://www.biospace.com/feed/"
    "BioSpace" 30 empty_world
  = fetch_news_from_feed sample_env "https://www.biospace.com/feed/"
      "BioSpace" 7 empty_world
  /\ fst (run_monthly_report sample_env 30 empty_world)
     = fst (run_monthly_report sample_env 7 empty_world).
Proof.
  split.
  - apply (days_back_not_a_filter sample_env
             "https://www.biospace.com/feed/" "BioSpace" 30 7 empty_world);
      unfold in_calendar, MAXORDINAL; simpl; lia.
  - apply (days_back_not_a_filter sample_env
             "https://www.biospace.com/feed/" "BioSpace" 30 7 empty_world);
      unfold in_calendar, MAXORDINAL; simpl; lia.
Defined.

Lemma fetch_failure_is_caught_witness :
  fetch_news_from_feed sample_env "https://www.genengnews.com/feed/"
    "GEN News" 30 empty_world
  = (Ok [], mkWorld [Fetching "GEN News"; ErrorFetching "GEN News" URLError]
                    [])
  /\ exists w', fetch_all_news sample_env 30 empty_world
                = (Ok (collected sample_env), w').
Proof.
  split.
  - apply (fetch_failure_is_caught sample_env
             "https://www.genengnews.com/feed/" "GEN News" 30 empty_world
             URLError).
    + unfold in_calendar, MAXORDINAL; simpl; lia.
    + reflexivity.
    + reflexivity.
  - apply (fetch_failure_is_caught sample_env
             "https://www.genengnews.com/feed/" "GEN News" 30 empty_world
             URLError).
    + unfold in_calendar, MAXORDINAL; simpl; lia.
    + reflexivity.
    + reflexivity.
    + exact sample_fails_softly.
Defined.

Lemma fetch_first_100_entries_witness :
  exists articles w',
    fetch_news_from_feed sample_env "https://www.biospace.com/feed/"
      "BioSpace" 30 empty_world = (Ok articles, w')
    /\ List.length articles = 2%nat.
Proof.
  destruct (fetch_first_100_entries sample_env
              "https://www.biospace.com/feed/" "BioSpace" 30 empty_world
              sample_entries)
    as (articles & w' & Hrun & Hlen & _).
  - unfold in_calendar, MAXORDINAL; simpl; lia.
  - reflexivity.
  - exists articles, w'. split; [exact Hrun | exact Hlen].
Defined.

(** The examples of the testable properties. *)

Example split_tokens :
  Str.split "  Moderna   Announces New" = ["Moderna"; "Announces"; "New"].
Proof. reflexivity. Qed.

Example extract_stops_at_lowercase :
  extract_company_name "Pfizer to acquire Seagen" = Ok "Pfizer".
Proof. reflexivity. Qed.

Example extract_first_five_only :
  extract_company_name "Eli Lilly And Company Reports Strong Sales"
  = Ok "Eli Lilly And Company Reports".
Proof. reflexivity. Qed.

Example truncate_200 : truncate (rule 200) = rule 200.
Proof. vm_compute. reflexivity. Qed.

Example truncate_201 : truncate (rule 201) = (rule 200 ++ "...")%string.
Proof. vm_compute. reflexivity. Qed.

Example ipo_matches_ipod :
  categorize_article (mkArticle "New iPod released" "" "" "" "")
  = ["funding"].
Proof. reflexivity. Qed.

Example two_categories_counted_twice :
  exists d w',
    process_articles
      [mkArticle "Acme revenue up after merger" "" "" "" "x"] empty_world
    = (Ok d, w')
    /\ summary_rows d
       = Ok [ ("Revenue Reports", 1%nat); ("Acquisitions", 1%nat);
              ("Funding Rounds", 0%nat); ("New Companies", 0%nat);
              ("Total Articles", 2%nat) ].
Proof. do 2 eexists. split; reflexivity. Qed.

Example nothing_fetched_no_report :
  run_monthly_report offline_env 30 empty_world
  = (Ok None, snd (run_monthly_report offline_env 30 empty_world))
  /\ files (snd (run_monthly_report offline_env 30 empty_world)) = [].
Proof. split; vm_compute; reflexivity. Qed.

End Instances.

(* ------------------------------------------------------------------ *)
(** * Further properties of the code *)

(** ** Splitting, joining and the company name *)

Section Tokens.

Lemma split_from_app (w rest cur : string) :
  no_space w = true ->
  Str.split_from cur (w ++ rest) = Str.split_from (cur ++ w) rest.
Proof.
  revert cur; induction w as [|c w IH]; intros cur Hw.
  - simpl. now rewrite append_empty_r.
  - simpl in Hw. apply andb_true_iff in Hw as [Hc Hw].
    apply negb_true_iff in Hc.
    cbn [append Str.split_from]. rewrite Hc, (IH _ Hw), append_assoc.
    reflexivity.
Qed.

Lemma join_cons (sep w : string) (l : list string) :
  l <> [] -> Str.join sep (w :: l) = (w ++ sep ++ Str.join sep l)%string.
Proof. destruct l; [contradiction | reflexivity]. Qed.

(** Splitting the join of tokens gives the tokens back. *)
Lemma split_join_tokens (tokens : list string) :
  Forall (fun w => w <> "" /\ no_space w = true) tokens ->
  Str.split (Str.join " " tokens) = tokens.
Proof.
  unfold Str.split. induction 1 as [|w l [Hne Hns] Hl IH]; [reflexivity|].
  destruct l as [|w2 l].
  - cbn [Str.join]. rewrite <- (append_empty_r w) at 1.
    rewrite (split_from_app _ _ _ Hns). cbn [append Str.split_from].
    destruct w; [contradiction | reflexivity].
  - rewrite join_cons by discriminate.
    rewrite (split_from_app _ _ _ Hns). cbn [append Str.split_from].
    change (Str.isspace " ") with true. cbv iota.
    rewrite IH. destruct w; [contradiction | reflexivity].
Qed.

Lemma split_tokens_wf (s : string) :
  Forall (fun w => w <> "" /\ no_space w = true) (Str.split s).
Proof.
  apply Forall_forall; intros w Hw. split.
  - exact (proj1 (Forall_forall _ _) (split_nonempty s) w Hw).
  - exact (proj1 (Forall_forall _ _)
             (split_from_no_space s "" eq_refl) w Hw).
Qed.

(** [split] undoes [join]: for tokens that are not empty and hold no
    whitespace, splitting their join by one space gives them back; and
    splitting, joining and splitting again is splitting once. *)
Theorem split_join_round_trip (tokens : list string) (s : string) :
  (Forall (fun w => w <> "" /\ no_space w = true) tokens ->
   Str.split (Str.join " " tokens) = tokens)
  /\ Str.split (Str.join " " (Str.split s)) = Str.split s.
Proof.
  split; [apply split_join_tokens|].
  apply split_join_tokens, split_tokens_wf.
Qed.

Lemma split_join_round_trip_witness :
  Str.split (Str.join " " ["Eli"; "Lilly"; "And"]) = ["Eli"; "Lilly"; "And"].
Proof.
  apply (split_join_round_trip ["Eli"; "Lilly"; "And"] "").
  repeat constructor; discriminate.
Defined.

Lemma take_while_all {A : Type} (p : A -> bool) (l : list A) :
  Forall (fun x => p x = true) (take_while p l).
Proof.
  induction l as [|x l IH]; simpl; [constructor|].
  destruct (p x) eqn:Hx; constructor; assumption.
Qed.

Lemma take_while_id {A : Type} (p : A -> bool) (l : list A) :
  Forall (fun x => p x = true) l -> take_while p l = l.
Proof. induction 1 as [|x l Hx _ IH]; simpl; [|rewrite Hx, IH]; reflexivity. Qed.

Lemma take_while_incl {A : Type} (p : A -> bool) (l : list A) (x : A) :
  In x (take_while p l) -> In x l.
Proof.
  induction l as [|y l IH]; simpl; [auto|].
  destruct (p y); simpl; [intros [H|H]; auto | contradiction].
Qed.

Lemma take_while_length {A : Type} (p : A -> bool) (l : list A) :
  (List.length (take_while p l) <= List.length l)%nat.
Proof.
  induction l as [|y l IH]; simpl; [lia|]. destruct (p y); simpl; lia.
Qed.

Lemma firstn_In {A : Type} (n : nat) (l : list A) (x : A) :
  In x (firstn n l) -> In x l.
Proof.
  revert l; induction n as [|n IH]; intros [|y l]; simpl;
    try contradiction.
  intros [H|H]; [now left | right; now apply IH].
Qed.

(** The tokens the extractor keeps. *)
Lemma kept_tokens (title : string) :
  let kept := take_while qualifies (firstn 5 (Str.split title)) in
  Forall (fun w => w <> "" /\ no_space w = true) kept
  /\ Forall (fun w => qualifies w = true) kept
  /\ (List.length kept <= 5)%nat.
Proof.
  cbv zeta. split; [|split].
  - apply Forall_forall; intros w Hw.
    apply take_while_incl, firstn_In in Hw.
    exact (proj1 (Forall_forall _ _) (split_tokens_wf title) w Hw).
  - apply take_while_all.
  - etransitivity; [apply take_while_length | apply firstn_le_length].
Qed.

Lemma extractCompany_idempotent (title : string) :
  extractCompany (extractCompany title) = extractCompany title.
Proof.
  destruct (kept_tokens title) as (Hwf & Hq & Hlen).
  unfold extractCompany at 2 3.
  destruct (take_while qualifies (firstn 5 (Str.split title)))
    as [|w kept] eqn:Hk; [reflexivity|].
  unfold extractCompany.
  rewrite (split_join_tokens _ Hwf), firstn_all2 by exact Hlen.
  now rewrite (take_while_id _ _ Hq).
Qed.

Lemma extractCompany_not_empty (title : string) :
  extractCompany title <> "".
Proof.
  destruct (kept_tokens title) as (Hwf & _ & _).
  unfold extractCompany.
  destruct (take_while qualifies (firstn 5 (Str.split title)))
    as [|w kept]; [discriminate|].
  apply Forall_inv in Hwf as [Hw _].
  destruct w as [|c w]; [contradiction|].
  destruct kept; discriminate.
Qed.

(** X1: the company name is a fixed point of the extractor and is never the
    empty string: extracting from an extracted name gives that name. *)
Theorem extract_company_name_idempotent (title name : string) :
  extract_company_name title = Ok name ->
  extract_company_name name = Ok name /\ name <> "".
Proof.
  rewrite extract_company_name_eq. intros H. injection H as <-.
  rewrite extract_company_name_eq, extractCompany_idempotent.
  split; [reflexivity | apply extractCompany_not_empty].
Qed.

Lemma extract_company_name_idempotent_witness :
  extract_company_name "Eli Lilly And Company Reports"
  = Ok "Eli Lilly And Company Reports"
  /\ "Eli Lilly And Company Reports" <> "".
Proof.
  apply (extract_company_name_idempotent
           "Eli Lilly And Company Reports Strong Sales").
  reflexivity.
Defined.

End Tokens.

(* ------------------------------------------------------------------ *)
(** ** The fields of a record *)

Section Fields.

Lemma take_app_exact (a b : string) :
  Str.take (String.length a) (a ++ b) = a.
Proof. induction a as [|c a IH]; simpl; [now destruct b | now rewrite IH]. Qed.

Lemma take_not_empty (n : nat) (s : string) :
  s <> "" -> Str.take (S n) s <> "".
Proof. destruct s; [contradiction | discriminate]. Qed.

(** X2: the summary of a record has at most 203 characters, and exactly 203
    whenever the article's summary has more than 200, so a summary of 201
    or 202 characters comes out longer than it went in; truncating twice
    is truncating once. *)
Theorem truncate_bounds (summary : string) :
  (String.length (truncate summary) <= 203)%nat
  /\ ((200 < String.length summary)%nat ->
      String.length (truncate summary) = 203%nat)
  /\ truncate (truncate summary) = truncate summary.
Proof.
  assert (Hlong : (200 < String.length summary)%nat ->
                  truncate summary = (Str.take 200 summary ++ "...")%string
                  /\ String.length (Str.take 200 summary) = 200%nat).
  { intros H. unfold truncate. apply Nat.ltb_lt in H as H'. rewrite H'.
    split; [reflexivity|]. rewrite take_length. lia. }
  destruct (Nat.ltb_spec 200 (String.length summary)) as [H|H].
  - destruct (Hlong H) as [Ht Hl]. rewrite Ht, length_append, Hl.
    split; [simpl; lia|]. split; [reflexivity|].
    unfold truncate at 1. rewrite length_append, Hl.
    change (200 <? 200 + String.length "...")%nat with true. cbv iota.
    rewrite <- Hl at 1. now rewrite take_app_exact.
  - assert (Hs : truncate summary = summary).
    { unfold truncate. apply Nat.ltb_ge in H. now rewrite H. }
    rewrite !Hs. split; [lia|]. split; [lia | reflexivity].
Qed.

Lemma truncate_bounds_witness :
  String.length (truncate (rule 201)) = 203%nat.
Proof. apply (truncate_bounds (rule 201)). vm_compute. lia. Defined.

(** X3: the date of a record is never empty and has at most 10 characters;
    a [published] text of at least 10 characters gives exactly 10. *)
Theorem date_of_bounds (published : string) :
  date_of published <> ""
  /\ (String.length (date_of published) <= 10)%nat
  /\ ((10 <= String.length published)%nat ->
      String.length (date_of published) = 10%nat).
Proof.
  destruct published as [|c p].
  - split; [discriminate|]. split; simpl; lia.
  - unfold date_of. split; [apply take_not_empty; discriminate|].
    rewrite take_length. split; lia.
Qed.

Lemma date_of_bounds_witness :
  String.length (date_of "Mon, 13 Mar 2023 10:00:00 GMT") = 10%nat.
Proof.
  apply (date_of_bounds "Mon, 13 Mar 2023 10:00:00 GMT"). simpl. lia.
Defined.

End Fields.

(* ------------------------------------------------------------------ *)
(** ** More on the classifier *)

Section ClassifierShape.

(** X4: the classifier returns the labels of the table that matched, each
    once and in table order: at most four labels, all from the table. *)
Theorem categorize_article_shape (a : article) :
  categorize_article a
  = filter (fun label => Str.mem label (categorize_article a)) labels
  /\ NoDup (categorize_article a)
  /\ (List.length (categorize_article a) <= 4)%nat
  /\ forall label, In label (categorize_article a) -> In label labels.
Proof.
  rewrite categorize_article_filter. unfold labels, keywords.
  cbn [filter snd map fst].
  repeat match goal with
         | |- context [any_keyword_in ?k ?t] => destruct (any_keyword_in k t)
         end;
    cbn [map fst];
    (split; [reflexivity|]; split;
     [repeat (constructor; [simpl; intuition discriminate|]); constructor|];
     split; [simpl; lia|]; simpl; intuition auto).
Qed.

Lemma occurs_ci_extend (kw text pre post : string) :
  occurs_ci kw text -> occurs_ci kw (pre ++ text ++ post).
Proof.
  intros (p & mid & q & -> & H).
  exists (pre ++ p)%string, mid, (q ++ post)%string. split; [|exact H].
  now rewrite !append_assoc.
Qed.

(** X5: more text never loses a category: every label of an article is
    still a label after text is put before its title and after its
    summary, whatever the other fields become. *)
Theorem categorize_article_monotone (a : article)
    (pre post link published source : string) (label : string) :
  In label (categorize_article a) ->
  In label (categorize_article
              (mkArticle (pre ++ a_title a) link published
                         (a_summary a ++ post) source)).
Proof.
  rewrite !categorize_article_In. intros (kws & kw & Hin & Hkw & Hocc).
  exists kws, kw. split; [assumption|]. split; [assumption|].
  unfold title_and_summary in *. cbn [a_title a_summary].
  apply (occurs_ci_extend _ _ pre post) in Hocc.
  now rewrite !append_assoc in *.
Qed.

Lemma categorize_article_monotone_witness :
  In "funding"
     (categorize_article
        (mkArticle "Breaking: Acme raised $5M" "" "" "seed round, led by X"
                   "")).
Proof.
  apply (categorize_article_monotone
           (mkArticle "Acme raised $5M" "" "" "seed round" "")
           "Breaking: " ", led by X" "" "" "" "funding").
  simpl. auto.
Defined.

(** X6: the classifier does not see letter case nor the link, date and
    source: two articles whose titles and whose summaries agree up to
    case get the same labels. *)
Theorem categorize_article_case_blind (a b : article) :
  Str.lower (a_title a) = Str.lower (a_title b) ->
  Str.lower (a_summary a) = Str.lower (a_summary b) ->
  categorize_article a = categorize_article b.
Proof.
  intros Ht Hs. unfold categorize_article, search_text.
  now rewrite !lower_append, Ht, Hs.
Qed.

Lemma categorize_article_case_blind_witness :
  categorize_article (mkArticle "ACME IPO" "l1" "d1" "Series A" "s1")
  = categorize_article (mkArticle "Acme ipo" "l2" "d2" "series a" "s2").
Proof.
  apply (categorize_article_case_blind
           (mkArticle "ACME IPO" "l1" "d1" "Series A" "s1")
           (mkArticle "Acme ipo" "l2" "d2" "series a" "s2"));
    reflexivity.
Defined.

End ClassifierShape.

(* ------------------------------------------------------------------ *)
(** ** What the buckets hold *)

Section Buckets.

(** What one article adds to a bucket. *)
Lemma bucket_of_cons (label : string) (a : article)
    (articles : list article) :
  bucket_of label (a :: articles)
  = (if Str.mem label (categorize_article a) then [to_record a] else [])
    ++ bucket_of label articles.
Proof.
  unfold bucket_of. cbn [filter].
  now destruct (Str.mem label (categorize_article a)).
Qed.

Lemma process_article_adds (v1 v2 v3 v4 : list record) (a : article) :
  process_article
    [ ("revenue", v1); ("acquisitions", v2); ("funding", v3);
      ("new_companies", v4) ] a
  = Ok [ ("revenue", v1 ++ bucket_of "revenue" [a]);
         ("acquisitions", v2 ++ bucket_of "acquisition" [a]);
         ("funding", v3 ++ bucket_of "funding" [a]);
         ("new_companies", v4 ++ bucket_of "new_company" [a]) ].
Proof.
  unfold process_article. rewrite extract_company_name_eq.
  unfold bucket_of, add_if. cbn [filter].
  fold (to_record a).
  destruct (Str.mem "revenue" (categorize_article a));
    destruct (Str.mem "acquisition" (categorize_article a));
    destruct (Str.mem "funding" (categorize_article a));
    destruct (Str.mem "new_company" (categorize_article a));
    cbn [dict_append String.eqb Ascii.eqb Bool.eqb andb map];
    rewrite ?app_nil_r; reflexivity.
Qed.

Lemma process_loop_adds (articles : list article)
    (v1 v2 v3 v4 : list record) (w : world) :
  for_each articles
    [ ("revenue", v1); ("acquisitions", v2); ("funding", v3);
      ("new_companies", v4) ]
    (fun categorized a => lift (process_article categorized a)) w
  = (Ok [ ("revenue", v1 ++ bucket_of "revenue" articles);
          ("acquisitions", v2 ++ bucket_of "acquisition" articles);
          ("funding", v3 ++ bucket_of "funding" articles);
          ("new_companies", v4 ++ bucket_of "new_company" articles) ],
     w).
Proof.
  revert v1 v2 v3 v4; induction articles as [|a articles IH]; intros.
  - cbn [for_each]. unfold ret, bucket_of. cbn [filter map].
    now rewrite !app_nil_r.
  - cbn [for_each]. unfold bind, lift at 1. rewrite process_article_adds.
    rewrite IH, !(bucket_of_cons _ a articles).
    unfold bucket_of at 1 3 5 7. cbn [filter].
    repeat match goal with
           | |- context [if ?b then _ else _] => destruct b
           end; cbn [map app]; rewrite <- ?app_assoc; reflexivity.
Qed.

(** The whole of [process_articles]: the buckets and the lines. *)
Lemma process_articles_run (articles : list article) (w : world) :
  process_articles articles w
  = (Ok (buckets_of articles),
     log [ Text (newline ++ rule 60);
           Text "PROCESSING AND CATEGORIZING ARTICLES";
           Text (rule 60);
           CategoryCount "Revenue"
             (List.length (bucket_of "revenue" articles));
           CategoryCount "Acquisition"
             (List.length (bucket_of "acquisition" articles));
           CategoryCount "Funding"
             (List.length (bucket_of "funding" articles));
           CategoryCount "New company"
             (List.length (bucket_of "new_company" articles)) ] w).
Proof.
  unfold process_articles.
  unfold bind at 1 2 3 4, print at 1 2 3. unfold empty_buckets.
  rewrite process_loop_adds. cbn [app]. cbv beta iota.
  unfold buckets_of, print_count, bind, lift, print, ret, log.
  cbn [dict_get String.eqb Ascii.eqb Bool.eqb andb stdout files].
  rewrite <- !app_assoc. reflexivity.
Qed.

Lemma bucket_of_length (label : string) (articles : list article) :
  (List.length (bucket_of label articles) <= List.length articles)%nat.
Proof. unfold bucket_of. rewrite length_map. apply filter_length_le. Qed.

(** X7: [process_articles] never raises and returns the four buckets in
    their order, each holding, in article order, the record of every
    article that carries the label of the bucket: an article with k labels
    is in k buckets, one without labels in none.  So no bucket is longer
    than the batch, and the total over the buckets is the number of labels
    given, at most 4 for each article. *)
Theorem process_articles_buckets (articles : list article) (w : world) :
  (exists ls,
     process_articles articles w = (Ok (buckets_of articles), log ls w))
  /\ (forall label,
        (List.length (bucket_of label articles)
         <= List.length articles)%nat)
  /\ total_count (buckets_of articles) = matches_total articles
  /\ (total_count (buckets_of articles) <= 4 * List.length articles)%nat.
Proof.
  split; [eexists; apply process_articles_run|].
  split; [intros label; apply bucket_of_length|].
  split.
  - destruct (process_articles_ok articles) as (d & ls & Hrun & _ & Ht).
    specialize (Hrun w). rewrite process_articles_run in Hrun.
    injection Hrun as <- _. exact Ht.
  - rewrite total_count_sum. unfold buckets_of.
    cbn [map snd list_sum fold_right].
    pose proof (bucket_of_length "revenue" articles).
    pose proof (bucket_of_length "acquisition" articles).
    pose proof (bucket_of_length "funding" articles).
    pose proof (bucket_of_length "new_company" articles).
    lia.
Qed.

(** The sheets of the buckets: the non-empty ones, in order. *)
Lemma category_sheets_filter (d : dict) (acc : workbook) :
  fold_left
    (fun sheets '(category, articles) =>
       match articles with
       | [] => sheets
       | _ =>
           sheets ++ [(Str.title (Str.replace "_" " " category),
                       ArticleSheet articles)]
       end) d acc
  = acc ++ map (fun kv => (sheet_name (fst kv), ArticleSheet (snd kv)))
               (filter (fun kv => nonempty (snd kv)) d).
Proof.
  revert acc; induction d as [|[k v] d IH]; intros acc.
  - simpl. now rewrite app_nil_r.
  - cbn [fold_left filter snd fst]. rewrite IH. destruct v as [|x v].
    + reflexivity.
    + cbn [nonempty map fst snd]. now rewrite <- app_assoc.
Qed.

(** X8: the workbook of four buckets starts with the Summary sheet, ends
    with the Metadata sheet and has between them one sheet for each bucket
    that is not empty, in bucket order, named Revenue, Acquisitions,
    Funding, New Companies; no two sheets share a name. *)
Theorem workbook_sheets (E : env) (rows : list (string * nat)) (d : dict) :
  map fst d = bucket_keys ->
  let wb := workbook_of E rows d in
  wb = [("Summary", CountSheet rows)]
       ++ map (fun kv => (sheet_name (fst kv), ArticleSheet (snd kv)))
              (filter (fun kv => nonempty (snd kv)) d)
       ++ [("Metadata", FieldSheet (metadata_rows E))]
  /\ (forall name, In name (map fst wb) ->
        In name ["Summary"; "Revenue"; "Acquisitions"; "Funding";
                 "New Companies"; "Metadata"])
  /\ NoDup (map fst wb)
  /\ (2 <= List.length wb <= 6)%nat.
Proof.
  intros Hk. cbv zeta. unfold workbook_of, category_sheets.
  rewrite category_sheets_filter. cbn [app].
  split; [reflexivity|].
  destruct d as [|[k1 v1] [|[k2 v2] [|[k3 v3] [|[k4 v4] [|? ?]]]]];
    try discriminate Hk.
  injection Hk as -> -> -> ->.
  destruct v1, v2, v3, v4;
    cbn [filter nonempty snd fst map app List.length];
    change (sheet_name "revenue") with "Revenue";
    change (sheet_name "acquisitions") with "Acquisitions";
    change (sheet_name "funding") with "Funding";
    change (sheet_name "new_companies") with "New Companies";
    (split; [intros name Hn; simpl in *; intuition auto|]; split;
     [repeat (constructor; [simpl; intuition discriminate|]); constructor
     | lia]).
Qed.

Lemma workbook_sheets_witness :
  map fst (workbook_of sample_env []
             (buckets_of
                [mkArticle "Acme revenue up after merger" "" "" "" "x"]))
  = ["Summary"; "Revenue"; "Acquisitions"; "Metadata"].
Proof.
  rewrite (proj1 (workbook_sheets sample_env []
                    (buckets_of
                       [mkArticle "Acme revenue up after merger" "" "" ""
                                  "x"])
                    eq_refl)).
  reflexivity.
Defined.

End Buckets.

(* ------------------------------------------------------------------ *)
(** ** More on fetching and on the run *)

Section Run.

Variable E : env.

Lemma feed_articles_length (item : string * string) :
  (List.length (feed_articles E item) <= 100)%nat.
Proof.
  destruct item as [source_name feed_url]. unfold feed_articles.
  destruct (parse E feed_url); [|simpl; lia].
  rewrite length_map. apply firstn_le_length.
Qed.

Lemma feed_articles_source (item : string * string) (a : article) :
  In a (feed_articles E item) -> a_source a = fst item.
Proof.
  destruct item as [source_name feed_url]. unfold feed_articles.
  destruct (parse E feed_url); [|contradiction].
  intros H. apply in_map_iff in H as (en & <- & _). reflexivity.
Qed.

Lemma feed_articles_nil (source_name feed_url : string) :
  feed_articles E (source_name, feed_url) = []
  <-> contributes_nothing E feed_url.
Proof.
  unfold feed_articles, contributes_nothing.
  destruct (parse E feed_url) as [[|en feed]|e]; simpl; split;
    auto; try discriminate; contradiction.
Qed.

Lemma flat_map_nil {A B : Type} (f : A -> list B) (l : list A) :
  flat_map f l = [] <-> forall x, In x l -> f x = [].
Proof.
  induction l as [|y l IH]; simpl.
  - split; [contradiction | reflexivity].
  - split.
    + intros H. apply app_eq_nil in H as [Hy Hl].
      intros x [<-|Hx]; [assumption | now apply IH].
    + intros H. rewrite (H y) by now left.
      apply IH. intros x Hx. apply H. now right.
Qed.

Lemma flat_map_length_le (l : list (string * string)) :
  (List.length (flat_map (feed_articles E) l) <= 100 * List.length l)%nat.
Proof.
  induction l as [|x l IH]; simpl; [lia|].
  rewrite length_app. pose proof (feed_articles_length x). lia.
Qed.

(** X9: with a computable cutoff and feeds that parse or fail with an
    [Exception], [fetch_all_news] returns the articles of the feeds in
    source order and, within a source, feed order: at most 400, each
    carrying the name of a configured source; the last line it prints is
    the number it returns. *)
Theorem fetch_all_news_in_order (days_back : Z) (w : world) :
  in_calendar E days_back -> feeds_fail_softly E ->
  exists ls,
    fetch_all_news E days_back w
    = (Ok (flat_map (feed_articles E) feeds),
       log (ls ++ [TotalCollected
                     (List.length (flat_map (feed_articles E) feeds))]) w)
    /\ (List.length (flat_map (feed_articles E) feeds) <= 400)%nat
    /\ forall a, In a (flat_map (feed_articles E) feeds) ->
                 In (a_source a) (map fst feeds).
Proof.
  intros Hd Hsoft.
  destruct (for_each_feeds_collects E days_back feeds [] Hd Hsoft)
    as [ls Hls].
  exists ([Text (newline ++ rule 60); Text "COLLECTING NEWS FROM SOURCES";
           Text (rule 60)] ++ ls).
  split; [|split].
  - unfold fetch_all_news.
    unfold bind at 1 2 3 4, print at 1 2 3.
    rewrite Hls. unfold bind, print, ret, log.
    cbn [stdout files app]. do 2 f_equal.
    now rewrite <- !app_assoc.
  - apply (flat_map_length_le feeds).
  - intros a Ha. apply in_flat_map in Ha as (item & Hitem & Ha).
    rewrite (feed_articles_source item a Ha). now apply in_map.
Qed.

(** The loop over the feeds stops at an exception that is not an
    [Exception]. *)
Lemma for_each_feeds_interrupted (days_back : Z)
    (fs : list (string * string)) (acc : list article) (w : world) :
  in_calendar E days_back ->
  (exists source_name feed_url e,
     In (source_name, feed_url) fs
     /\ parse E feed_url = Raise e /\ is_Exception e = false) ->
  exists e' w',
    for_each fs acc
      (fun all_articles '(source_name, feed_url) =>
         articles <- fetch_news_from_feed E feed_url source_name days_back ;;
         ret (all_articles ++ articles)) w
    = (Raise e', w')
    /\ is_Exception e' = false.
Proof.
  intros Hd. revert acc w.
  induction fs as [|[sn url] fs IH]; intros acc w (s0 & u0 & e & Hin & Hp & He).
  - contradiction.
  - cbn [for_each]. unfold bind at 1 2.
    rewrite (fetch_in_calendar E _ _ _ _ Hd).
    destruct (parse E url) as [feed|e1] eqn:Hp1.
    + cbn zeta. unfold ret at 1. apply IH.
      destruct Hin as [Heq|Hin]; [|now exists s0, u0, e].
      injection Heq as -> ->. congruence.
    + destruct (is_Exception e1) eqn:He1.
      * unfold ret at 1. apply IH.
        destruct Hin as [Heq|Hin]; [|now exists s0, u0, e].
        injection Heq as -> ->. congruence.
      * now exists e1, (log [Fetching sn] w).
Qed.

(** X11: an exception of [feedparser.parse] that is not an [Exception]
    (an interrupt from the keyboard) is not caught: it ends
    [fetch_all_news] and the run, the articles of the feeds read before
    are dropped and no workbook is written. *)
Theorem run_interrupted (days_back : Z) (w : world)
    (source_name feed_url : string) (e : exn) :
  in_calendar E days_back ->
  In (source_name, feed_url) feeds ->
  parse E feed_url = Raise e ->
  is_Exception e = false ->
  exists e',
    fst (fetch_all_news E days_back w) = Raise e'
    /\ fst (run_monthly_report E days_back w) = Raise e'
    /\ is_Exception e' = false
    /\ files (snd (run_monthly_report E days_back w)) = files w.
Proof.
  intros Hd Hin Hp He.
  destruct (fetch_all_logs_only E days_back) as (r & ls & Hf).
  assert (Hr : exists e', r = Raise e' /\ is_Exception e' = false).
  { specialize (Hf w). unfold fetch_all_news in Hf.
    unfold bind at 1 2 3 4, print at 1 2 3 in Hf.
    match type of Hf with
    | context [for_each feeds [] ?body ?w0] =>
        destruct (for_each_feeds_interrupted days_back feeds [] w0 Hd)
          as (e' & w' & Hloop & He');
          [now exists source_name, feed_url, e|];
          rewrite Hloop in Hf
    end.
    injection Hf as <- _. now exists e'. }
  destruct Hr as (e' & -> & He'). exists e'.
  pose proof (run_after_fetch E days_back _ ls
                (in_calendar_formattable E _ Hd) Hf w) as [Hres Hfiles].
  rewrite Hf. auto.
Qed.

(** After a fetch that found articles: the report of their buckets. *)
Lemma after_fetch_report (a : article) (articles : list article) :
  exists ls, forall w0,
    after_fetch E (a :: articles) w0
    = (Ok (Some (report_filename E)),
       mkWorld
         (stdout w0 ++ ls)
         (files w0
          ++ [(report_filename E,
               workbook_of E
                 (five_rows
                    (List.length (bucket_of "revenue" (a :: articles)))
                    (List.length (bucket_of "acquisition" (a :: articles)))
                    (List.length (bucket_of "funding" (a :: articles)))
                    (List.length (bucket_of "new_company" (a :: articles))))
                 (buckets_of (a :: articles)))])).
Proof.
  destruct (create_excel_report_ok E (buckets_of (a :: articles))
              (five_rows
                 (List.length (bucket_of "revenue" (a :: articles)))
                 (List.length (bucket_of "acquisition" (a :: articles)))
                 (List.length (bucket_of "funding" (a :: articles)))
                 (List.length (bucket_of "new_company" (a :: articles)))))
    as [ls' Hc]; [reflexivity|].
  eexists. intros w0. unfold after_fetch. unfold bind at 1.
  rewrite process_articles_run.
  unfold bind at 1. rewrite Hc.
  unfold bind, print, ret, log. cbn [stdout files].
  rewrite <- !app_assoc. reflexivity.
Qed.

(** The run, once the fetch is known to succeed. *)
Lemma run_after_collect (days_back : Z) (w : world) :
  in_calendar E days_back -> feeds_fail_softly E ->
  exists ls,
    run_monthly_report E days_back w
    = after_fetch E (flat_map (feed_articles E) feeds) (log ls w).
Proof.
  intros Hd Hsoft.
  destruct (fetch_all_news_collects E days_back Hd Hsoft) as [ls Hf].
  unfold collected in Hf.
  exists (banner E days_back ++ ls).
  rewrite run_unfold by (eapply in_calendar_formattable; eassumption).
  unfold bind. now rewrite Hf, log_log.
Qed.

Lemma bucket_of_unmatched (label : string) (articles : list article) :
  (forall a, In a articles -> categorize_article a = []) ->
  bucket_of label articles = [].
Proof.
  intros H. unfold bucket_of.
  induction articles as [|a articles IH]; [reflexivity|].
  cbn [filter]. rewrite (H a) by now left.
  cbn [Str.mem existsb]. apply IH. intros x Hx. apply H. now right.
Qed.

(** X13: with a computable cutoff and feeds that parse or fail with an
    [Exception], the run returns [None] exactly when every configured feed
    failed or was empty; otherwise it returns the name of the report and
    the one workbook it adds holds the Summary rows and the sheets of the
    buckets of all fetched articles. *)
Theorem run_end_to_end (days_back : Z) (w : world) :
  in_calendar E days_back -> feeds_fail_softly E ->
  let articles := flat_map (feed_articles E) feeds in
  (fst (run_monthly_report E days_back w) = Ok None
   <-> forall source_name feed_url,
         In (source_name, feed_url) feeds ->
         contributes_nothing E feed_url)
  /\ (articles <> [] ->
      fst (run_monthly_report E days_back w) = Ok (Some (report_filename E))
      /\ files (snd (run_monthly_report E days_back w))
         = files w
           ++ [(report_filename E,
                workbook_of E
                  (five_rows
                     (List.length (bucket_of "revenue" articles))
                     (List.length (bucket_of "acquisition" articles))
                     (List.length (bucket_of "funding" articles))
                     (List.length (bucket_of "new_company" articles)))
                  (buckets_of articles))]).
Proof.
  intros Hd Hsoft. cbv zeta.
  destruct (run_after_collect days_back w Hd Hsoft) as [ls Heq].
  assert (Hnil : flat_map (feed_articles E) feeds = []
                 <-> forall source_name feed_url,
                       In (source_name, feed_url) feeds ->
                       contributes_nothing E feed_url).
  { rewrite flat_map_nil. split.
    - intros H sn url Hin. apply (feed_articles_nil sn url), H, Hin.
    - intros H [sn url] Hin. apply feed_articles_nil, (H sn url Hin). }
  rewrite !Heq. clear Heq.
  destruct (flat_map (feed_articles E) feeds) as [|a articles].
  - rewrite after_fetch_nil. split.
    + split; [intros _; now apply Hnil | reflexivity].
    + intros Hne. now contradiction Hne.
  - destruct (after_fetch_report a articles) as [ls2 Hrun].
    rewrite Hrun. cbn [fst snd files]. split.
    + split; [discriminate|].
      intros H. apply Hnil in H. discriminate H.
    + intros _. split; reflexivity.
Qed.

(** X14: when articles were fetched but none carries a label, the report
    is written all the same: its Summary sheet counts 0 five times and no
    bucket has a sheet. *)
Theorem run_nothing_matched (days_back : Z) (w : world) :
  in_calendar E days_back -> feeds_fail_softly E ->
  flat_map (feed_articles E) feeds <> [] ->
  (forall a, In a (flat_map (feed_articles E) feeds) ->
             categorize_article a = []) ->
  fst (run_monthly_report E days_back w) = Ok (Some (report_filename E))
  /\ files (snd (run_monthly_report E days_back w))
     = files w
       ++ [(report_filename E,
            [ ("Summary",
               CountSheet
                 [ ("Revenue Reports", 0%nat); ("Acquisitions", 0%nat);
                   ("Funding Rounds", 0%nat); ("New Companies", 0%nat);
                   ("Total Articles", 0%nat) ]);
              ("Metadata", FieldSheet (metadata_rows E)) ])].
Proof.
  intros Hd Hsoft Hne Hnone.
  destruct (run_after_collect days_back w Hd Hsoft) as [ls Heq].
  rewrite !Heq. clear Heq.
  destruct (flat_map (feed_articles E) feeds) as [|a articles];
    [now contradiction Hne|].
  destruct (after_fetch_report a articles) as [ls2 Hrun].
  rewrite Hrun. unfold buckets_of.
  rewrite !(bucket_of_unmatched _ _ Hnone).
  split; reflexivity.
Qed.

End Run.

(* ------------------------------------------------------------------ *)
(** ** Closed instances of the further properties *)

Section MoreInstances.

Lemma categorize_article_shape_witness :
  In "funding" labels.
Proof.
  apply (categorize_article_shape
           (mkArticle "Acme raised $5M" "" "" "seed round" "")).
  simpl. auto.
Defined.

Lemma fetch_all_news_in_order_witness :
  fst (fetch_all_news sample_env 30 empty_world)
  = Ok (flat_map (feed_articles sample_env) feeds)
  /\ (List.length (flat_map (feed_articles sample_env) feeds) <= 400)%nat.
Proof.
  destruct (fetch_all_news_in_order sample_env 30 empty_world)
    as (ls & Hrun & Hlen & _).
  - unfold in_calendar, MAXORDINAL; simpl; lia.
  - exact sample_fails_softly.
  - rewrite Hrun. split; [reflexivity | exact Hlen].
Defined.

Lemma run_interrupted_witness :
  exists e',
    fst (run_monthly_report interrupted_env 30 empty_world) = Raise e'
    /\ is_Exception e' = false.
Proof.
  destruct (run_interrupted interrupted_env 30 empty_world
              "FierceBiotech" "https://www.fiercebiotech.com/rss/xml"
              KeyboardInterrupt)
    as (e' & _ & Hrun & He & _).
  - unfold in_calendar, MAXORDINAL; simpl; lia.
  - simpl. auto.
  - reflexivity.
  - reflexivity.
  - exists e'. split; assumption.
Defined.

Lemma run_end_to_end_witness :
  fst (run_monthly_report sample_env 30 empty_world)
  = Ok (Some "Biotech_Pharma_Report_2026-11.xlsx").
Proof.
  apply (run_end_to_end sample_env 30 empty_world).
  - unfold in_calendar, MAXORDINAL; simpl; lia.
  - exact sample_fails_softly.
  - discriminate.
Defined.

Lemma run_nothing_matched_witness :
  fst (run_monthly_report quiet_env 30 empty_world)
  = Ok (Some "Biotech_Pharma_Report_2026-11.xlsx").
Proof.
  apply (run_nothing_matched quiet_env 30 empty_world).
  - unfold in_calendar, MAXORDINAL; simpl; lia.
  - intros feed_url e H. discriminate H.
  - discriminate.
  - intros a Ha. simpl in Ha.
    repeat (destruct Ha as [<-|Ha]; [reflexivity|]). contradiction.
Defined.

Lemma process_articles_buckets_witness :
  total_count
    (buckets_of [mkArticle "Acme revenue up after merger" "" "" "" "x"])
  = 2%nat.
Proof.
  rewrite (proj1 (proj2 (proj2 (process_articles_buckets
                    [mkArticle "Acme revenue up after merger" "" "" "" "x"]
                    empty_world)))).
  reflexivity.
Defined.

End MoreInstances.

(* ------------------------------------------------------------------ *)
(** ** The extractor against the tokens of the title *)

Section Tokenisation.

(** [split] reads the tokens [tokens_of] describes. *)
Lemma tokens_of_split_from (s : string) :
  tokens_of s (Str.split_from "" s)
  /\ forall cur, cur <> "" -> no_space cur = true ->
                 tokens_of (cur ++ s) (Str.split_from cur s).
Proof.
  induction s as [|c s [IHe IHc]].
  - split; [constructor|]. intros cur Hne Hns. cbn [Str.split_from].
    destruct cur as [|x cur]; [contradiction|].
    apply tokens_word; [discriminate | assumption | exact I | constructor].
  - split.
    + cbn [Str.split_from]. destruct (Str.isspace c) eqn:Hc.
      * now apply tokens_skip.
      * apply (IHc (String c "")); [discriminate|].
        simpl. now rewrite Hc.
    + intros cur Hne Hns. cbn [Str.split_from].
      destruct (Str.isspace c) eqn:Hc.
      * destruct cur as [|x cur]; [contradiction|].
        apply tokens_word; [discriminate | assumption | exact Hc |].
        now apply tokens_skip.
      * replace (cur ++ String c s)%string
          with ((cur ++ String c "") ++ s)%string
          by (rewrite append_assoc; reflexivity).
        apply IHc; [apply append_not_empty | now apply no_space_snoc].
Qed.

Lemma tokens_of_split (s : string) : tokens_of s (Str.split s).
Proof. apply tokens_of_split_from. Qed.

(** A text has one list of tokens only. *)
Lemma tokens_of_unique (s : string) (ts : list string) :
  tokens_of s ts -> ts = Str.split s.
Proof.
  unfold Str.split.
  induction 1 as [|c s ts Hc _ IH|t s ts Hne Hns Hb _ IH].
  - reflexivity.
  - cbn [Str.split_from]. now rewrite Hc.
  - rewrite (split_from_app _ _ _ Hns). cbn [append]. subst ts.
    destruct s as [|c s]; cbn [Str.split_from].
    + destruct t; [contradiction | reflexivity].
    + simpl in Hb. rewrite Hb. destruct t; [contradiction | reflexivity].
Qed.

(** [join] by a space puts one space before each token but the first. *)
Lemma join_single_spaced (others : list string) (prefix first : string) :
  (prefix ++ Str.join " " (first :: others))%string
  = single_spaced (prefix ++ first) others.
Proof.
  unfold single_spaced.
  revert prefix first; induction others as [|u others IH]; intros.
  - reflexivity.
  - rewrite join_cons by discriminate. cbn [fold_left].
    rewrite <- (append_assoc (prefix ++ first) " " u).
    rewrite <- (IH ((prefix ++ first) ++ " ")%string u).
    now rewrite !append_assoc.
Qed.

(** C3: for every title, with its whitespace-separated tokens read from
    the left, the extractor looks at the first 5 of them only, keeps the
    tokens before the first one that does not start with an uppercase
    letter or has at most 2 characters, and returns the kept tokens with
    one space between neighbours, or ["Unknown"] when none is kept.  Every
    title has such tokens. *)
Theorem extract_company_name_refines (title : string) :
  (exists ts, tokens_of title ts)
  /\ forall ts,
       tokens_of title ts ->
       extract_company_name title
       = Ok match take_while qualifies (firstn 5 ts) with
            | [] => "Unknown"
            | first :: others =>
                fold_left (fun acc w => (acc ++ " " ++ w)%string)
                          others first
            end.
Proof.
  split; [exists (Str.split title); apply tokens_of_split|].
  intros ts Hts. apply tokens_of_unique in Hts. subst ts.
  rewrite extract_company_name_eq. unfold extractCompany.
  destruct (take_while qualifies (firstn 5 (Str.split title)))
    as [|first others]; [reflexivity|].
  f_equal. exact (join_single_spaced others "" first).
Qed.

Lemma extract_company_name_refines_witness :
  extract_company_name "Eli Lilly  And company News" = Ok "Eli Lilly And".
Proof.
  apply (proj2 (extract_company_name_refines "Eli Lilly  And company News")
           ["Eli"; "Lilly"; "And"; "company"; "News"]).
  apply (tokens_word "Eli" " Lilly  And company News");
    [discriminate | reflexivity | reflexivity |].
  apply tokens_skip; [reflexivity|].
  apply (tokens_word "Lilly" "  And company News");
    [discriminate | reflexivity | reflexivity |].
  do 2 (apply tokens_skip; [reflexivity|]).
  apply (tokens_word "And" " company News");
    [discriminate | reflexivity | reflexivity |].
  apply tokens_skip; [reflexivity|].
  apply (tokens_word "company" " News");
    [discriminate | reflexivity | reflexivity |].
  apply tokens_skip; [reflexivity|].
  apply (tokens_word "News" "");
    [discriminate | reflexivity | exact I | apply tokens_end].
Defined.

End Tokenisation.

(* ------------------------------------------------------------------ *)
(** ** The run, step by step *)

Section Steps.

Variable E : env.

(** Outside the calendar the first fetch raises, after the headings. *)
Lemma fetch_all_news_out_of_calendar (days_back : Z) (w : world) :
  ~ in_calendar E days_back ->
  fetch_all_news E days_back w
  = (Raise OverflowError,
     log [ Text (newline ++ rule 60); Text "COLLECTING NEWS FROM SOURCES";
           Text (rule 60) ] w).
Proof.
  intros Hd. unfold fetch_all_news.
  unfold bind at 1 2 3 4, print at 1 2 3. unfold feeds. cbn [for_each].
  unfold bind at 1 2. rewrite (fetch_out_of_calendar E _ _ _ _ Hd).
  unfold log. cbn [stdout files]. now rewrite <- !app_assoc.
Qed.

Lemma in_calendar_dec (days_back : Z) :
  in_calendar E days_back \/ ~ in_calendar E days_back.
Proof. unfold in_calendar, MAXORDINAL. lia. Qed.

(** A fetch over all feeds that returned had a computable cutoff and wrote
    no workbook. *)
Lemma fetch_all_news_returned (days_back : Z) (w w1 : world)
    (articles : list article) :
  fetch_all_news E days_back w = (Ok articles, w1) ->
  in_calendar E days_back /\ files w1 = files w.
Proof.
  intros Hf. split.
  - destruct (in_calendar_dec days_back) as [H|H]; [exact H|].
    rewrite (fetch_all_news_out_of_calendar _ _ H) in Hf. discriminate Hf.
  - destruct (fetch_all_logs_only E days_back) as (r & ls & Hall).
    rewrite Hall in Hf. injection Hf as _ <-. reflexivity.
Qed.

Lemma summary_rows_buckets_of (articles : list article) :
  summary_rows (buckets_of articles)
  = Ok (five_rows (List.length (bucket_of "revenue" articles))
                  (List.length (bucket_of "acquisition" articles))
                  (List.length (bucket_of "funding" articles))
                  (List.length (bucket_of "new_company" articles))).
Proof. reflexivity. Qed.

(** The report writer on the buckets of a batch: the headings, then the
    writer, whose failure is the failure of the whole. *)
Lemma create_excel_report_via_buckets
    (writer : string -> workbook -> M unit) (articles : list article)
    (w : world) :
  create_excel_report_via E writer (buckets_of articles) w
  = match writer (report_filename E) (report_of E articles)
                 (log generating_lines w) with
    | (Ok _, w3) =>
        (Ok (report_filename E), log [ReportCreated (report_filename E)] w3)
    | (Raise e, w3) => (Raise e, w3)
    end.
Proof.
  unfold create_excel_report_via.
  unfold bind at 1 2 3, print at 1 2 3.
  rewrite summary_rows_buckets_of. unfold bind at 1, lift.
  unfold bind at 1. unfold report_of, generating_lines, log.
  cbn [stdout files]. rewrite <- !app_assoc. cbn [app].
  destruct (writer _ _ _) as [[[]|e] w3]; reflexivity.
Qed.

Lemma after_fetch_via_cons (writer : string -> workbook -> M unit)
    (a : article) (articles : list article) (w1 : world) :
  after_fetch_via E writer (a :: articles) w1
  = match writer (report_filename E) (report_of E (a :: articles))
                 (log generating_lines
                      (log (processing_lines (a :: articles)) w1)) with
    | (Ok _, w3) =>
        (Ok (Some (report_filename E)),
         log (ReportCreated (report_filename E) :: complete_lines) w3)
    | (Raise e, w3) => (Raise e, w3)
    end.
Proof.
  unfold after_fetch_via. unfold bind at 1.
  rewrite process_articles_run.
  change (log _ w1) with (log (processing_lines (a :: articles)) w1).
  unfold bind at 1. rewrite create_excel_report_via_buckets.
  destruct (writer _ _ _) as [[[]|e] w3]; [|reflexivity].
  unfold bind, print, ret, complete_lines, log. cbn [stdout files].
  rewrite <- !app_assoc. reflexivity.
Qed.

(** C7: once fetching returned, the run returns [None] exactly when no
    article was collected, and then nothing is processed and the writer is
    not called.  Otherwise it goes on without a test: [process_articles]
    gives the buckets of the articles, the writer is handed the report of
    those buckets under the name of the month, and the run returns that
    name when the writer returns, and fails with the writer when it fails.
    With the writer that succeeds, the one workbook added is that report. *)
Theorem run_monthly_report_outcome
    (writer : string -> workbook -> M unit) (days_back : Z) (w w1 : world)
    (articles : list article) :
  fetch_all_news E days_back (log (banner E days_back) w)
  = (Ok articles, w1) ->
  let run := run_monthly_report_via E writer days_back w in
  let w2 := log (processing_lines articles) w1 in
  (fst run = Ok None <-> articles = [])
  /\ (articles = [] -> run = (Ok None, log [NoArticles] w1))
  /\ (articles <> [] ->
      process_articles articles w1 = (Ok (buckets_of articles), w2)
      /\ forall w3,
           (writer (report_filename E) (report_of E articles)
                   (log generating_lines w2) = (Ok tt, w3) ->
            run = (Ok (Some (report_filename E)),
                   log (ReportCreated (report_filename E) :: complete_lines)
                       w3))
           /\ forall e,
                writer (report_filename E) (report_of E articles)
                       (log generating_lines w2) = (Raise e, w3) ->
                run = (Raise e, w3))
  /\ files w1 = files w
  /\ (articles <> [] ->
      fst (run_monthly_report E days_back w)
      = Ok (Some (report_filename E))
      /\ files (snd (run_monthly_report E days_back w))
         = files w ++ [(report_filename E, report_of E articles)]).
Proof.
  intros Hfetch. cbv zeta.
  destruct (fetch_all_news_returned _ _ _ _ Hfetch) as [Hcal Hfiles].
  pose proof (in_calendar_formattable E _ Hcal) as Hfmt.
  assert (Hrun : forall wr,
             run_monthly_report_via E wr days_back w
             = after_fetch_via E wr articles w1).
  { intros wr. rewrite (run_via_unfold E wr _ _ Hfmt).
    unfold bind. now rewrite Hfetch. }
  unfold run_monthly_report. rewrite !Hrun. clear Hrun.
  destruct articles as [|a articles].
  - change (after_fetch_via E writer [] w1)
      with (Ok (@None string), log [NoArticles] w1).
    split; [split; reflexivity|]. split; [reflexivity|].
    split; [intros Hne; now contradiction Hne|].
    split; [exact Hfiles|]. intros Hne; now contradiction Hne.
  - rewrite !after_fetch_via_cons.
    split.
    { destruct (writer _ _ _) as [[[]|e] w3]; split; discriminate. }
    split; [discriminate|].
    split.
    { intros _. split; [apply process_articles_run|].
      intros w3. split.
      - intros Hw. now rewrite Hw.
      - intros e Hw. now rewrite Hw. }
    split; [exact Hfiles|].
    intros _. unfold save, log. cbn [fst snd stdout files].
    rewrite Hfiles. split; reflexivity.
Qed.

End Steps.

Section StepsInstances.

Lemma run_monthly_report_outcome_witness :
  run_monthly_report_via offline_env save 30 empty_world
  = (Ok None,
     log [NoArticles]
         (snd (fetch_all_news offline_env 30
                 (log (banner offline_env 30) empty_world))))
  /\ (fst (run_monthly_report sample_env 30 empty_world)
      = Ok (Some "Biotech_Pharma_Report_2026-11.xlsx")
      /\ files (snd (run_monthly_report sample_env 30 empty_world))
         = [("Biotech_Pharma_Report_2026-11.xlsx",
             report_of sample_env (collected sample_env))])
  /\ fst (run_monthly_report_via sample_env refusing_writer 30 empty_world)
     = Raise OSError.
Proof.
  split; [|split].
  - apply (run_monthly_report_outcome offline_env save 30 empty_world
             (snd (fetch_all_news offline_env 30
                     (log (banner offline_env 30) empty_world)))
             []);
      reflexivity.
  - apply (run_monthly_report_outcome sample_env save 30 empty_world
             (snd (fetch_all_news sample_env 30
                     (log (banner sample_env 30) empty_world)))
             (collected sample_env)).
    + reflexivity.
    + discriminate.
  - pose proof (run_monthly_report_outcome sample_env refusing_writer 30
                  empty_world
                  (snd (fetch_all_news sample_env 30
                          (log (banner sample_env 30) empty_world)))
                  (collected sample_env) eq_refl) as H.
    cbv zeta in H. destruct H as (_ & _ & H & _).
    destruct H as [_ H]; [discriminate|].
    erewrite (proj2 (H _) OSError); reflexivity.
Defined.

End StepsInstances.

Section StepsFailures.

(** X10: a [days_back] whose cutoff date cannot be computed aborts the whole
    run before any feed is read, and no workbook is written: with more
    than 4300 digits it cannot be printed and the run ends with
    [ValueError] at the line that shows it; otherwise the run ends with
    the [OverflowError] of the first fetch, right after the headings. *)
Theorem run_out_of_calendar (E : env) (days_back : Z) (w : world) :
  ~ in_calendar E days_back ->
  (formattable days_back ->
   run_monthly_report E days_back w
   = (Raise OverflowError,
      log (banner E days_back
           ++ [Text (newline ++ rule 60);
               Text "COLLECTING NEWS FROM SOURCES"; Text (rule 60)]) w))
  /\ (~ formattable days_back ->
      run_monthly_report E days_back w
      = (Raise ValueError, log (banner_head E) w)).
Proof.
  intros Hd. split.
  - intros Hfmt. rewrite (run_unfold E _ _ Hfmt). unfold bind.
    rewrite (fetch_all_news_out_of_calendar E _ _ Hd).
    now rewrite log_log.
  - intros Hfmt. unfold run_monthly_report, run_monthly_report_via.
    unfold bind at 1 2 3 4 5, print at 1 2 3 4 5.
    unfold bind at 1, lift at 1. rewrite (format_int_refused _ Hfmt).
    unfold banner_head, log. cbn [stdout files].
    rewrite <- !app_assoc. reflexivity.
Qed.

Lemma run_out_of_calendar_witness :
  fst (run_monthly_report sample_env 1000000000 empty_world)
  = Raise OverflowError
  /\ files (snd (run_monthly_report sample_env 1000000000 empty_world)) = []
  /\ run_monthly_report sample_env (10 ^ 4300) empty_world
     = (Raise ValueError, log (banner_head sample_env) empty_world).
Proof.
  assert (Hout : ~ in_calendar sample_env 1000000000)
    by (unfold in_calendar; simpl; lia).
  assert (Hfmt : formattable 1000000000)
    by (unfold formattable; vm_compute; reflexivity).
  assert (Hout' : ~ in_calendar sample_env (10 ^ 4300)).
  { intros [H _]. revert H. vm_compute. intros H. now apply H. }
  assert (Hfmt' : ~ formattable (10 ^ 4300)).
  { unfold formattable. vm_compute. discriminate. }
  rewrite (proj1 (run_out_of_calendar sample_env 1000000000 empty_world
                    Hout) Hfmt).
  split; [reflexivity|]. split; [reflexivity|].
  exact (proj2 (run_out_of_calendar sample_env (10 ^ 4300) empty_world
                  Hout') Hfmt').
Defined.

End StepsFailures.
